(** * SpotAnalyzer: the client-side analysis state machine

    A shallow embedding of [src/components/features/SpotAnalyzer.tsx]: the
    component's state, its four handlers ([handleImageUpload],
    [fetchUsageStats], [analyzeSpot], [resetAnalyzer]) written as small
    effectful programs, the parts of the render that gate the handlers, and
    the event loop that interleaves user events with settled promises. *)

From Stdlib Require Import String Ascii List Bool NArith Arith Lia.
From Stdlib Require Import Floats.PrimFloat.
Import ListNotations.
Local Open Scope string_scope.

(** ** JavaScript values

    What [response.json()] can produce, plus [undefined], which property
    access on a parsed body yields for a missing key.  Numbers are IEEE
    doubles, as in the host. *)

(* No induction over values is needed: the handlers only read one level. *)
Unset Elimination Schemes.
Inductive value : Type :=
| VUndefined
| VNull
| VBool (b : bool)
| VNum (n : float)
| VStr (s : string)
| VArr (items : list value)
| VObj (props : list (string * value)).
Set Elimination Schemes.

(** The exceptions the handlers can meet: [fetch] rejects with a
    [TypeError], [response.json()] with a [SyntaxError], and reading a
    property of [null] or [undefined] throws a [TypeError]. *)
Inductive Exn : Type :=
| TypeError (msg : string)
| SyntaxError (msg : string).

(** How an expression evaluation or a promise ends. *)
Inductive Completion (A : Type) : Type :=
| Normal (a : A)
| Thrown (e : Exn).
Arguments Normal {A} a.
Arguments Thrown {A} e.

(** [ToBoolean]: the conversion behind [if (x)], [!x], [x || y], [x && y]. *)
Definition truthy (v : value) : bool :=
  match v with
  | VUndefined | VNull => false
  | VBool b => b
  | VNum n => negb (PrimFloat.eqb n 0%float || negb (PrimFloat.eqb n n))
  | VStr s => negb (String.eqb s EmptyString)
  | VArr _ | VObj _ => true
  end.

(** [a || b] *)
Definition js_or (a b : value) : value := if truthy a then a else b.

Fixpoint lookup (key : string) (props : list (string * value)) : value :=
  match props with
  | [] => VUndefined
  | (k, v) :: rest => if String.eqb k key then v else lookup key rest
  end.

(** [v.key] for the keys the component reads ([success], [recommendation],
    [provider], [error], [usage]); none of them lives on a prototype, so
    on a primitive or an array the access gives [undefined].  The own keys
    of an object are distinct. *)
Definition getProp (key : string) (v : value) : Completion value :=
  match v with
  | VUndefined => Thrown (TypeError "Cannot read properties of undefined")
  | VNull => Thrown (TypeError "Cannot read properties of null")
  | VObj props => Normal (lookup key props)
  | VBool _ | VNum _ | VStr _ | VArr _ => Normal VUndefined
  end.

(** ** Files, requests and responses *)

Module File.
Record t : Type := make { name : string; type : string; size : N }.
End File.

Inductive Method : Type := GET | POST.

(** A call of [fetch]; [body] is the [FormData] with its single [file]
    field, when there is one. *)
Record Request : Type := mkRequest {
  method : Method;
  url : string;
  body : option File.t
}.

(** The [Response] object.  The handlers never look at the status; they
    only call [json()] on it. *)
Record Response : Type := mkResponse { status : N }.

(** ** Component state

    The seven [useState] cells and the value of the hidden file input
    reached through [fileInputRef]. *)

Record State : Type := mkState {
  selectedImage : option string;
  selectedFile : option File.t;
  analysis : value;
  loading : bool;
  error : value;
  usageStats : value;
  provider : value;
  fileInputValue : string
}.

Definition initialState : State :=
  {| selectedImage := None;
     selectedFile := None;
     analysis := VNull;
     loading := false;
     error := VNull;
     usageStats := VNull;
     provider := VStr EmptyString;
     fileInputValue := EmptyString |}.

(** The state setters, and the assignment [fileInputRef.current.value = _]. *)
Inductive Setter : Type :=
| setSelectedImage (v : option string)
| setSelectedFile (v : option File.t)
| setAnalysis (v : value)
| setLoading (b : bool)
| setError (v : value)
| setUsageStats (v : value)
| setProvider (v : value)
| assignFileInputValue (s : string).

Definition apply (s : Setter) (st : State) : State :=
  match s with
  | setSelectedImage v =>
      mkState v (selectedFile st) (analysis st) (loading st) (error st)
              (usageStats st) (provider st) (fileInputValue st)
  | setSelectedFile v =>
      mkState (selectedImage st) v (analysis st) (loading st) (error st)
              (usageStats st) (provider st) (fileInputValue st)
  | setAnalysis v =>
      mkState (selectedImage st) (selectedFile st) v (loading st) (error st)
              (usageStats st) (provider st) (fileInputValue st)
  | setLoading b =>
      mkState (selectedImage st) (selectedFile st) (analysis st) b (error st)
              (usageStats st) (provider st) (fileInputValue st)
  | setError v =>
      mkState (selectedImage st) (selectedFile st) (analysis st) (loading st) v
              (usageStats st) (provider st) (fileInputValue st)
  | setUsageStats v =>
      mkState (selectedImage st) (selectedFile st) (analysis st) (loading st)
              (error st) v (provider st) (fileInputValue st)
  | setProvider v =>
      mkState (selectedImage st) (selectedFile st) (analysis st) (loading st)
              (error st) (usageStats st) v (fileInputValue st)
  | assignFileInputValue s =>
      mkState (selectedImage st) (selectedFile st) (analysis st) (loading st)
              (error st) (usageStats st) (provider st) s
  end.

Definition writesLoading (s : Setter) : bool :=
  match s with setLoading _ => true | _ => false end.

(** ** Handler programs

    A handler is a finite tree of effects.  [AwaitFetch] and [AwaitJson]
    are the two [await] points: the program stops there and its
    continuation receives the way the promise settled.  [ReadAsDataURL]
    registers the [onload] callback and goes on synchronously. *)

Inductive Prog : Type :=
| Done
| Throw (e : Exn)
| SetState (s : Setter) (k : Prog)
| ConsoleError (label : string) (e : Exn) (k : Prog)
| AwaitFetch (req : Request) (k : Completion Response -> Prog)
| AwaitJson (resp : Response) (k : Completion value -> Prog)
| ReadAsDataURL (file : File.t) (onload : string -> Prog) (k : Prog).

(** [p; q] *)
Fixpoint seq (p q : Prog) : Prog :=
  match p with
  | Done => q
  | Throw e => Throw e
  | SetState s k => SetState s (seq k q)
  | ConsoleError l e k => ConsoleError l e (seq k q)
  | AwaitFetch req k => AwaitFetch req (fun c => seq (k c) q)
  | AwaitJson resp k => AwaitJson resp (fun c => seq (k c) q)
  | ReadAsDataURL f onload k => ReadAsDataURL f onload (seq k q)
  end.

(** [try { p } catch (e) { handler e }]; a callback registered inside the
    block runs later, outside of it. *)
Fixpoint try_catch (p : Prog) (handler : Exn -> Prog) : Prog :=
  match p with
  | Done => Done
  | Throw e => handler e
  | SetState s k => SetState s (try_catch k handler)
  | ConsoleError l e k => ConsoleError l e (try_catch k handler)
  | AwaitFetch req k => AwaitFetch req (fun c => try_catch (k c) handler)
  | AwaitJson resp k => AwaitJson resp (fun c => try_catch (k c) handler)
  | ReadAsDataURL f onload k => ReadAsDataURL f onload (try_catch k handler)
  end.

(** [try { p } finally { cleanup }] *)
Fixpoint try_finally (p cleanup : Prog) : Prog :=
  match p with
  | Done => cleanup
  | Throw e => seq cleanup (Throw e)
  | SetState s k => SetState s (try_finally k cleanup)
  | ConsoleError l e k => ConsoleError l e (try_finally k cleanup)
  | AwaitFetch req k => AwaitFetch req (fun c => try_finally (k c) cleanup)
  | AwaitJson resp k => AwaitJson resp (fun c => try_finally (k c) cleanup)
  | ReadAsDataURL f onload k => ReadAsDataURL f onload (try_finally k cleanup)
  end.

(** [const x = await fetch(req); k x] *)
Definition await_fetch (req : Request) (k : Response -> Prog) : Prog :=
  AwaitFetch req (fun c => match c with Normal r => k r | Thrown e => Throw e end).

(** [const x = await resp.json(); k x] *)
Definition await_json (resp : Response) (k : value -> Prog) : Prog :=
  AwaitJson resp (fun c => match c with Normal v => k v | Thrown e => Throw e end).

(** [const x = v.key; k x] *)
Definition read (v : value) (key : string) (k : value -> Prog) : Prog :=
  match getProp key v with Normal x => k x | Thrown e => Throw e end.

Definition origin_url : string := "http://localhost:8000/".

Definition usageRequest : Request :=
  mkRequest GET (origin_url ++ "usage-stats") None.

Definition analysisRequest (endpoint : string) (file : File.t) : Request :=
  mkRequest POST (origin_url ++ endpoint) (Some file).

Definition maxFileSize : N := 10 * 1024 * 1024.

Definition msgNotImage : string := "Please select a valid image file".
Definition msgTooLarge : string :=
  "Image too large. Please select an image under 10MB".
Definition msgAnalysisFailed : string := "Analysis failed".
Definition msgConnection : string :=
  "Failed to analyze image. Please check your connection and try again.".

(** [handleImageUpload], applied to [event.target.files?.[0]]. *)
Definition handleImageUpload (file : option File.t) : Prog :=
  match file with
  | Some file =>
      if negb (String.prefix "image/" (File.type file)) then
        SetState (setError (VStr msgNotImage)) Done
      else if (maxFileSize <? File.size file)%N then
        SetState (setError (VStr msgTooLarge)) Done
      else
        SetState (setError VNull)
        (SetState (setSelectedFile (Some file))
        (ReadAsDataURL file
           (fun result =>
              SetState (setSelectedImage (Some result))
              (SetState (setAnalysis VNull) Done))
           Done))
  | None => Done
  end.

Definition fetchUsageStats : Prog :=
  try_catch
    (await_fetch usageRequest (fun response =>
     await_json response (fun result =>
     read result "success" (fun success =>
     if truthy success then
       read result "usage" (fun usage =>
       SetState (setUsageStats usage) Done)
     else Done))))
    (fun e => ConsoleError "Failed to fetch usage stats:" e Done).

(** [analyzeSpot], closed over the state of the render that created it:
    the only cell it reads is [selectedFile]. *)
Definition analyzeSpot (rendered : State) (endpoint : string) : Prog :=
  match selectedFile rendered with
  | None => Done
  | Some file =>
      SetState (setLoading true)
      (SetState (setError VNull)
      (try_finally
         (try_catch
            (await_fetch (analysisRequest endpoint file) (fun response =>
             await_json response (fun result =>
             read result "success" (fun success =>
             if truthy success then
               read result "recommendation" (fun recommendation =>
               SetState (setAnalysis recommendation)
               (read result "provider" (fun prov =>
               SetState (setProvider prov)
               (seq fetchUsageStats Done))))
             else
               read result "error" (fun err =>
               SetState (setError (js_or err (VStr msgAnalysisFailed))) Done)))))
            (fun e =>
               ConsoleError "Analysis error:" e
               (SetState (setError (VStr msgConnection)) Done)))
         (SetState (setLoading false) Done)))
  end.

(** [resetAnalyzer]; the ref is attached for as long as the component is
    mounted, since the input is always rendered. *)
Definition resetAnalyzer : Prog :=
  SetState (setSelectedImage None)
  (SetState (setSelectedFile None)
  (SetState (setAnalysis VNull)
  (SetState (setError VNull)
  (SetState (setProvider (VStr EmptyString))
  (SetState (assignFileInputValue EmptyString) Done))))).

(** ** Running a handler

    Everything up to the next [await] runs in one go.  The result is the
    state reached, the effects performed in order, what is left waiting
    (an awaited promise, a reader callback), and the exception that
    escaped, if any. *)

Inductive Effect : Type :=
| ESet (s : Setter)
| EConsoleError (label : string) (e : Exn)
| EFetch (req : Request)
| EJson (resp : Response)
| ERead (file : File.t).

Inductive Suspension : Type :=
| OnFetch (req : Request) (k : Completion Response -> Prog)
| OnJson (resp : Response) (k : Completion value -> Prog)
| OnLoad (file : File.t) (onload : string -> Prog).

Record Run : Type := mkRun {
  final : State;
  trace : list Effect;
  suspended : list Suspension;
  uncaught : option Exn
}.

Definition logged (e : Effect) (r : Run) : Run :=
  mkRun (final r) (e :: trace r) (suspended r) (uncaught r).

Fixpoint run (p : Prog) (st : State) : Run :=
  match p with
  | Done => mkRun st [] [] None
  | Throw e => mkRun st [] [] (Some e)
  | SetState s k => logged (ESet s) (run k (apply s st))
  | ConsoleError l e k => logged (EConsoleError l e) (run k st)
  | AwaitFetch req k => mkRun st [EFetch req] [OnFetch req k] None
  | AwaitJson resp k => mkRun st [EJson resp] [OnJson resp k] None
  | ReadAsDataURL f onload k =>
      let r := run k st in
      mkRun (final r) (ERead f :: trace r) (OnLoad f onload :: suspended r)
            (uncaught r)
  end.

(** What the environment hands back to a suspension. *)
Inductive Answer : Type :=
| FetchSettled (c : Completion Response)
| JsonSettled (c : Completion value)
| ReaderLoaded (dataUrl : string).

Definition resume (s : Suspension) (a : Answer) : option Prog :=
  match s, a with
  | OnFetch _ k, FetchSettled c => Some (k c)
  | OnJson _ k, JsonSettled c => Some (k c)
  | OnLoad _ onload, ReaderLoaded dataUrl => Some (onload dataUrl)
  | _, _ => None
  end.

(** One invocation followed on its own: the answers are fed, in order, to
    whatever the invocation is waiting for, with nothing else happening in
    between.  An answer of the wrong kind stops the play. *)
Fixpoint play (answers : list Answer) (r : Run) : Run :=
  match answers, suspended r with
  | a :: rest, s :: others =>
      match resume s a with
      | Some p =>
          let r' := run p (final r) in
          play rest (mkRun (final r') (trace r ++ trace r')
                           (suspended r' ++ others) (uncaught r'))
      | None => r
      end
  | _, _ => r
  end.

Definition terminated (r : Run) : bool :=
  match suspended r with [] => true | _ :: _ => false end.

Definition isUsageFetch (e : Effect) : bool :=
  match e with
  | EFetch (mkRequest GET u None) => String.eqb u (origin_url ++ "usage-stats")
  | _ => false
  end.

Definition isAnalysisFetch (e : Effect) : bool :=
  match e with
  | EFetch (mkRequest POST _ (Some _)) => true
  | _ => false
  end.

(** How many usage refreshes, resp. analysis requests, a trace starts. *)
Definition usageRefreshes (t : list Effect) : nat :=
  List.length (List.filter isUsageFetch t).

Definition analysisCalls (t : list Effect) : nat :=
  List.length (List.filter isAnalysisFetch t).

(** ** The render, as far as it gates the handlers or shows the result *)

Definition shown (img : option string) : bool :=
  match img with Some s => negb (String.eqb s EmptyString) | None => false end.

(** The three analysis buttons: rendered under [selectedImage && ...],
    each with [disabled={loading}]. *)
Inductive AnalyzeButton : Type := SmartAnalysis | GeminiDirect | HFFallback.

Definition endpointOf (b : AnalyzeButton) : string :=
  match b with
  | SmartAnalysis => "analyze-smart"
  | GeminiDirect => "analyze-gemini"
  | HFFallback => "analyze-hf"
  end.

Definition analyzeRendered (st : State) : bool := shown (selectedImage st).
Definition analyzeDisabled (st : State) : bool := loading st.
Definition resetRendered (st : State) : bool := shown (selectedImage st).

(** The results panel: [!analysis && !loading ? placeholder : loading ?
    spinner : analysis]. *)
Inductive Panel : Type :=
| Placeholder
| Spinner
| Recommendation (text : value).

Definition resultsPanel (st : State) : Panel :=
  if negb (truthy (analysis st)) && negb (loading st) then Placeholder
  else if loading st then Spinner
  else Recommendation (analysis st).

(** [{provider && <span>{provider}</span>}] and [{error && ...}] *)
Definition providerBadge (st : State) : option value :=
  if truthy (provider st) then Some (provider st) else None.

Definition errorBanner (st : State) : option value :=
  if truthy (error st) then Some (error st) else None.

(** ** The event loop

    User events and settled promises arrive one at a time; each runs its
    handler or continuation to the next [await].  A task remembers which
    handler it descends from. *)

Inductive Source : Type := FromMount | FromUpload | FromAnalyze | FromReset.

Definition isAnalyze (o : Source) : bool :=
  match o with FromAnalyze => true | _ => false end.

Record Task : Type := mkTask {
  tid : nat;
  source : Source;
  waiting : Suspension
}.

Record System : Type := mkSystem {
  component : State;
  tasks : list Task;
  fresh : nat;
  history : list Effect
}.

Fixpoint enqueue (o : Source) (n : nat) (l : list Suspension) : list Task :=
  match l with
  | [] => []
  | s :: rest => mkTask n o s :: enqueue o (S n) rest
  end.

(** Run [p] on the component; what it leaves waiting joins the tasks.  The
    promise of an async handler is dropped by its caller, so an escaping
    exception would go nowhere. *)
Definition dispatch (o : Source) (p : Prog) (sys : System) : System :=
  let r := run p (component sys) in
  mkSystem (final r)
           (tasks sys ++ enqueue o (fresh sys) (suspended r))
           (fresh sys + List.length (suspended r))
           (history sys ++ trace r).

Fixpoint extract (id : nat) (l : list Task) : option (Task * list Task) :=
  match l with
  | [] => None
  | t :: rest =>
      if Nat.eqb (tid t) id then Some (t, rest)
      else match extract id rest with
           | Some (t', rest') => Some (t', t :: rest')
           | None => None
           end
  end.

Inductive Event : Type :=
| ChooseFile (file : option File.t)
| ClickAnalyze (b : AnalyzeButton)
| ClickReset
| Settle (id : nat) (a : Answer).

(** The browser fills the input before it fires [onChange]. *)
Definition chosenPath (file : option File.t) : string :=
  match file with
  | Some f => "C:\fakepath\" ++ File.name f
  | None => EmptyString
  end.

Definition withComponent (st : State) (sys : System) : System :=
  mkSystem st (tasks sys) (fresh sys) (history sys).

Definition withTasks (l : list Task) (sys : System) : System :=
  mkSystem (component sys) l (fresh sys) (history sys).

(** [None]: the event cannot happen there (the button is absent or
    disabled, nothing waits under that id, the answer is of the wrong
    kind). *)
Definition step (ev : Event) (sys : System) : option System :=
  match ev with
  | ChooseFile file =>
      Some (dispatch FromUpload (handleImageUpload file)
              (withComponent
                 (apply (assignFileInputValue (chosenPath file)) (component sys))
                 sys))
  | ClickAnalyze b =>
      if analyzeRendered (component sys) && negb (analyzeDisabled (component sys))
      then Some (dispatch FromAnalyze
                   (analyzeSpot (component sys) (endpointOf b)) sys)
      else None
  | ClickReset =>
      if resetRendered (component sys)
      then Some (dispatch FromReset resetAnalyzer sys)
      else None
  | Settle id a =>
      match extract id (tasks sys) with
      | Some (t, rest) =>
          match resume (waiting t) a with
          | Some p => Some (dispatch (source t) p (withTasks rest sys))
          | None => None
          end
      | None => None
      end
  end.

(** On mount the effect hook calls [fetchUsageStats()]. *)
Definition mounted : System :=
  dispatch FromMount fetchUsageStats (mkSystem initialState [] 0 []).

Fixpoint exec (evs : list Event) (sys : System) : option System :=
  match evs with
  | [] => Some sys
  | ev :: rest =>
      match step ev sys with
      | Some sys' => exec rest sys'
      | None => None
      end
  end.

Inductive reachable : System -> Prop :=
| reach_mounted : reachable mounted
| reach_step ev sys sys' :
    reachable sys -> step ev sys = Some sys' -> reachable sys'.

(** The [analyzeSpot] invocations that have started and not yet ended. *)
Definition countAnalyses (l : list Task) : nat :=
  List.length (List.filter (fun t => isAnalyze (source t)) l).

Definition analysesInFlight (sys : System) : nat := countAnalyses (tasks sys).

(** ** Shapes of programs

    [linear]: no write to [loading] and no reader callback, so a run
    leaves at most one suspension.  [quiet]: no write to [loading].
    [releasing]: every path through the program ends by writing
    [loading := false] and writes [loading] nowhere before. *)

Inductive inert : Prog -> Prop :=
| inert_done : inert Done
| inert_throw e : inert (Throw e).

Inductive linear : Prog -> Prop :=
| linear_done : linear Done
| linear_throw e : linear (Throw e)
| linear_set s k : writesLoading s = false -> linear k -> linear (SetState s k)
| linear_console l e k : linear k -> linear (ConsoleError l e k)
| linear_fetch req k : (forall c, linear (k c)) -> linear (AwaitFetch req k)
| linear_json resp k : (forall c, linear (k c)) -> linear (AwaitJson resp k).

Inductive quiet : Prog -> Prop :=
| quiet_done : quiet Done
| quiet_throw e : quiet (Throw e)
| quiet_set s k : writesLoading s = false -> quiet k -> quiet (SetState s k)
| quiet_console l e k : quiet k -> quiet (ConsoleError l e k)
| quiet_fetch req k : (forall c, quiet (k c)) -> quiet (AwaitFetch req k)
| quiet_json resp k : (forall c, quiet (k c)) -> quiet (AwaitJson resp k)
| quiet_reader f onload k :
    (forall s, quiet (onload s)) -> quiet k -> quiet (ReadAsDataURL f onload k).

Inductive releasing : Prog -> Prop :=
| releasing_now k : inert k -> releasing (SetState (setLoading false) k)
| releasing_set s k :
    writesLoading s = false -> releasing k -> releasing (SetState s k)
| releasing_console l e k : releasing k -> releasing (ConsoleError l e k)
| releasing_fetch req k :
    (forall c, releasing (k c)) -> releasing (AwaitFetch req k)
| releasing_json resp k :
    (forall c, releasing (k c)) -> releasing (AwaitJson resp k).

Definition quietS (s : Suspension) : Prop :=
  match s with
  | OnFetch _ k => forall c, quiet (k c)
  | OnJson _ k => forall c, quiet (k c)
  | OnLoad _ onload => forall d, quiet (onload d)
  end.

Definition releasingS (s : Suspension) : Prop :=
  match s with
  | OnFetch _ k => forall c, releasing (k c)
  | OnJson _ k => forall c, releasing (k c)
  | OnLoad _ _ => False
  end.

Definition taskOk (t : Task) : Prop :=
  if isAnalyze (source t) then releasingS (waiting t) else quietS (waiting t).

(** The invariant of the event loop: every task has the shape of its
    handler, and [loading] tells whether an [analyzeSpot] is under way. *)
Definition busyInvariant (sys : System) : Prop :=
  Forall taskOk (tasks sys) /\
  analysesInFlight sys = (if loading (component sys) then 1 else 0).

(** ** Sample data *)

Definition reedsPng : File.t := File.make "reeds.png" "image/png" 204800.
Definition pierJpg : File.t := File.make "pier.jpg" "image/jpeg" 10485760.
Definition hugeJpg : File.t := File.make "lake.jpg" "image/jpeg" 10485761.
Definition notesPdf : File.t := File.make "notes.pdf" "application/pdf" 4096.

Definition reedsUrl : string := "data:image/png;base64,iVBORw0KGgo=".
Definition pierUrl : string := "data:image/jpeg;base64,/9j/4AAQ".

Definition ok200 : Response := mkResponse 200.

Definition reedsBody : value :=
  VObj [("success", VBool true);
        ("recommendation", VStr "Cast near the reeds");
        ("provider", VStr "gemini")].

Definition quotaBody : value :=
  VObj [("success", VBool false); ("error", VStr "quota exceeded")].

Definition emptyErrorBody : value :=
  VObj [("success", VBool false); ("error", VStr EmptyString)].

Definition usageBody : value :=
  VObj [("success", VBool true);
        ("usage", VObj [("daily", VObj [("used", VNum 5%float);
                                        ("limit", VNum 25%float);
                                        ("percentage", VNum 20%float)])])].

Definition usageMissingBody : value := VObj [("success", VBool true)].

Definition snapshot : value :=
  VObj [("daily", VObj [("used", VNum 5%float);
                        ("limit", VNum 25%float);
                        ("percentage", VNum 20%float)])].

Definition offline : Exn := TypeError "Failed to fetch".

(** A file is staged and an analysis is started: [loading] is set. *)
Definition untilLoading : list Event :=
  [ChooseFile (Some reedsPng);
   Settle 1 (ReaderLoaded reedsUrl);
   ClickAnalyze SmartAnalysis].

(** ... and while it is pending the user picks something that is not an
    image, which puts a message in the error slot. *)
Definition untilLoadingWithError : list Event :=
  untilLoading ++ [ChooseFile (Some notesPdf)].

(** ... or presses the reset button. *)
Definition resetWhileLoading : list Event :=
  untilLoading ++ [ClickReset].

(** A first analysis succeeds and its usage refresh completes. *)
Definition untilAnalysed : list Event :=
  untilLoading ++
  [Settle 2 (FetchSettled (Normal ok200));
   Settle 3 (JsonSettled (Normal reedsBody));
   Settle 4 (FetchSettled (Normal ok200));
   Settle 5 (JsonSettled (Normal usageBody))].

(** ... then a second analysis is refused by the service. *)
Definition failAfterSuccess : list Event :=
  untilAnalysed ++
  [ClickAnalyze GeminiDirect;
   Settle 6 (FetchSettled (Normal ok200));
   Settle 7 (JsonSettled (Normal quotaBody))].

(** ... or another photo is chosen and read. *)
Definition acceptAfterSuccess : list Event :=
  untilAnalysed ++
  [ChooseFile (Some pierJpg);
   Settle 6 (ReaderLoaded pierUrl)].

Definition after (evs : list Event) : System :=
  match exec evs mounted with
  | Some sys => sys
  | None => mounted
  end.

(** A state left by an earlier successful analysis. *)
Definition analysedState : State :=
  mkState (Some reedsUrl) (Some reedsPng) (VStr "Cast near the reeds") false
          VNull snapshot (VStr "gemini") "C:\fakepath\reeds.png".

(** ** What a program may ever do

    [always P p]: every effect on every path of [p], callbacks included,
    satisfies [P].  [handled p]: no path of [p] ends in an exception. *)

Inductive always (P : Effect -> Prop) : Prog -> Prop :=
| always_done : always P Done
| always_throw e : always P (Throw e)
| always_set s k : P (ESet s) -> always P k -> always P (SetState s k)
| always_console l e k :
    P (EConsoleError l e) -> always P k -> always P (ConsoleError l e k)
| always_fetch req k :
    P (EFetch req) -> (forall c, always P (k c)) -> always P (AwaitFetch req k)
| always_json resp k :
    P (EJson resp) -> (forall c, always P (k c)) -> always P (AwaitJson resp k)
| always_reader f onload k :
    P (ERead f) -> (forall d, always P (onload d)) -> always P k ->
    always P (ReadAsDataURL f onload k).

Inductive handled : Prog -> Prop :=
| handled_done : handled Done
| handled_set s k : handled k -> handled (SetState s k)
| handled_console l e k : handled k -> handled (ConsoleError l e k)
| handled_fetch req k : (forall c, handled (k c)) -> handled (AwaitFetch req k)
| handled_json resp k : (forall c, handled (k c)) -> handled (AwaitJson resp k)
| handled_reader f onload k :
    (forall d, handled (onload d)) -> handled k ->
    handled (ReadAsDataURL f onload k).

Definition alwaysS (P : Effect -> Prop) (s : Suspension) : Prop :=
  match s with
  | OnFetch _ k => forall c, always P (k c)
  | OnJson _ k => forall c, always P (k c)
  | OnLoad _ onload => forall d, always P (onload d)
  end.

Definition handledS (s : Suspension) : Prop :=
  match s with
  | OnFetch _ k => forall c, handled (k c)
  | OnJson _ k => forall c, handled (k c)
  | OnLoad _ onload => forall d, handled (onload d)
  end.

(** A system in which the state satisfies [I], and every effect performed
    so far or still to come from a pending task satisfies [P]. *)
Definition holds (P : Effect -> Prop) (I : State -> Prop) (sys : System) : Prop :=
  I (component sys) /\
  Forall (fun t => alwaysS P (waiting t)) (tasks sys) /\
  Forall P (history sys).

(** An invocation of [analyzeSpot] seen from outside: nothing escaped, and
    it is either over with the busy flag cleared or waiting on exactly one
    promise with the flag set. *)
Definition orderly (r : Run) : Prop :=
  uncaught r = None /\
  ((suspended r = [] /\ loading (final r) = false) \/
   (exists s, suspended r = [s] /\ releasingS s /\ handledS s /\
              loading (final r) = true)).

(** The two checks of [handleImageUpload]. *)
Definition validFile (f : File.t) : bool :=
  String.prefix "image/" (File.type f) && (File.size f <=? maxFileSize)%N.

Definition carriesValidFile (e : Effect) : Prop :=
  match e with
  | ESet (setSelectedFile (Some f)) => validFile f = true
  | EFetch req =>
      match body req with Some f => validFile f = true | None => True end
  | ERead f => validFile f = true
  | _ => True
  end.

Definition fileValidated (st : State) : Prop :=
  match selectedFile st with Some f => validFile f = true | None => True end.



Definition knownRequest (req : Request) : Prop :=
  req = usageRequest \/
  exists b f, req = analysisRequest (endpointOf b) f.

Definition sendsKnownRequest (e : Effect) : Prop :=
  match e with EFetch req => knownRequest req | _ => True end.

Definition noAnalysisFetch (e : Effect) : Prop := isAnalysisFetch e = false.

(** The first expression of the usage card, [usageStats.daily.used],
    evaluated under the guard [usageStats && ...]: [None] when the card is
    not rendered. *)
Definition usageCardUsed (st : State) : option (Completion value) :=
  if truthy (usageStats st) then
    Some (match getProp "daily" (usageStats st) with
          | Normal daily => getProp "used" daily
          | Thrown e => Thrown e
          end)
  else None.

(** A file is chosen and read, an analysis is started with button [b],
    the form is reset, and then the response arrives. *)
Definition lateResponse (file : File.t) (dataUrl : string) (b : AnalyzeButton)
    (resp : Response) (result : value) : list Event :=
  [ChooseFile (Some file);
   Settle 1 (ReaderLoaded dataUrl);
   ClickAnalyze b;
   ClickReset;
   Settle 2 (FetchSettled (Normal resp));
   Settle 3 (JsonSettled (Normal result))].


Definition usageWithoutDaily : value :=
  VObj [("success", VBool true); ("usage", VObj [("weekly", VNum 3%float)])].

(** A second photo is chosen, the form is reset while it is being read,
    and then the reader delivers: a preview with no selected file. *)
Definition previewWithoutFile : list Event :=
  [ChooseFile (Some reedsPng);
   Settle 1 (ReaderLoaded reedsUrl);
   ChooseFile (Some pierJpg);
   ClickReset;
   Settle 2 (ReaderLoaded pierUrl)].

(** Symbolic execution of a handler: unfold it, then feed the facts known
    about the response one at a time. *)
Ltac unfold_handlers :=
  unfold analyzeSpot, fetchUsageStats, await_fetch, await_json, read, js_or.

Ltac feed H := rewrite ?H; simpl.

(** * Properties *)

(** ** Reachability *)

Lemma exec_app evs1 evs2 sys :
  exec (evs1 ++ evs2) sys =
  match exec evs1 sys with Some sys' => exec evs2 sys' | None => None end.
Proof.
  revert sys; induction evs1 as [|ev evs1 IH]; intros sys; simpl.
  - reflexivity.
  - destruct (step ev sys); [apply IH | reflexivity].
Qed.

Lemma exec_reachable evs : forall sys sys',
  reachable sys -> exec evs sys = Some sys' -> reachable sys'.
Proof.
  induction evs as [|ev evs IH]; intros sys sys' Hr He; simpl in He.
  - now inversion He; subst.
  - destruct (step ev sys) as [sys1|] eqn:Hs; [|discriminate].
    eapply IH; [|exact He]. eapply reach_step; eauto.
Qed.

Lemma after_reachable evs sys :
  exec evs mounted = Some sys -> reachable (after evs).
Proof.
  intros He. unfold after. rewrite He.
  eapply exec_reachable; [apply reach_mounted | exact He].
Qed.

(** ** Image intake *)

(** C8. A file whose MIME type does not start with [image/] is refused
    with the message "Please select a valid image file" in the error slot;
    nothing else is written: the staged file, its preview, the analysis,
    the provider, the busy flag and the usage snapshot stay as they were,
    and no reader or request is started. *)
Theorem C8_non_image_rejected (st : State) (file : File.t) :
  String.prefix "image/" (File.type file) = false ->
  let r := run (handleImageUpload (Some file)) st in
  error (final r) = VStr msgNotImage /\
  trace r = [ESet (setError (VStr msgNotImage))] /\
  suspended r = [] /\
  selectedFile (final r) = selectedFile st /\
  selectedImage (final r) = selectedImage st /\
  analysis (final r) = analysis st /\
  provider (final r) = provider st /\
  loading (final r) = loading st /\
  usageStats (final r) = usageStats st /\
  fileInputValue (final r) = fileInputValue st.
Proof.
  intros Hty. unfold handleImageUpload. rewrite Hty. simpl.
  repeat split.
Qed.

Lemma C8_non_image_rejected_witness :
  let r := run (handleImageUpload (Some notesPdf)) analysedState in
  error (final r) = VStr msgNotImage /\
  trace r = [ESet (setError (VStr msgNotImage))] /\
  suspended r = [] /\
  selectedFile (final r) = Some reedsPng /\
  selectedImage (final r) = Some reedsUrl /\
  analysis (final r) = VStr "Cast near the reeds" /\
  provider (final r) = VStr "gemini" /\
  loading (final r) = false /\
  usageStats (final r) = snapshot /\
  fileInputValue (final r) = "C:\fakepath\reeds.png".
Proof.
  apply (C8_non_image_rejected analysedState notesPdf). reflexivity.
Defined.

(** C9. An image file of 10,485,761 bytes or more is refused with the
    "too large" message and is not staged (the selected file is kept and no
    reader is started); an image file of at most 10,485,760 bytes passes
    the size check: it becomes the selected file and its preview is
    requested. *)
Theorem C9_size_limit (st : State) (file : File.t) :
  String.prefix "image/" (File.type file) = true ->
  let r := run (handleImageUpload (Some file)) st in
  ((10485761 <= File.size file)%N ->
     error (final r) = VStr msgTooLarge /\
     selectedFile (final r) = selectedFile st /\
     selectedImage (final r) = selectedImage st /\
     trace r = [ESet (setError (VStr msgTooLarge))] /\
     suspended r = []) /\
  ((File.size file <= 10485760)%N ->
     error (final r) = VNull /\
     selectedFile (final r) = Some file /\
     trace r = [ESet (setError VNull); ESet (setSelectedFile (Some file));
                ERead file] /\
     List.length (suspended r) = 1).
Proof.
  intros Hty. unfold handleImageUpload. rewrite Hty. simpl negb. cbv iota.
  split; intros Hsz.
  - assert (Hlt : (maxFileSize <? File.size file)%N = true)
      by (apply N.ltb_lt; unfold maxFileSize; lia).
    rewrite Hlt. simpl. repeat split.
  - assert (Hlt : (maxFileSize <? File.size file)%N = false)
      by (apply N.ltb_ge; unfold maxFileSize; lia).
    rewrite Hlt. simpl. repeat split.
Qed.

Lemma C9_size_limit_witness :
  (let r := run (handleImageUpload (Some hugeJpg)) analysedState in
   error (final r) = VStr msgTooLarge /\
   selectedFile (final r) = Some reedsPng /\
   selectedImage (final r) = Some reedsUrl /\
   trace r = [ESet (setError (VStr msgTooLarge))] /\
   suspended r = []) /\
  (let r := run (handleImageUpload (Some pierJpg)) analysedState in
   error (final r) = VNull /\
   selectedFile (final r) = Some pierJpg /\
   trace r = [ESet (setError VNull); ESet (setSelectedFile (Some pierJpg));
              ERead pierJpg] /\
   List.length (suspended r) = 1).
Proof.
  split.
  - apply (proj1 (C9_size_limit analysedState hugeJpg eq_refl)).
    simpl. lia.
  - apply (proj2 (C9_size_limit analysedState pierJpg eq_refl)).
    simpl. lia.
Defined.

(** What accepting a valid file does, once its preview has been read:
    the error, the selected file, the preview and the analysis are
    written; [provider] is not among them. *)
Lemma accept_valid_file (st : State) (file : File.t) (dataUrl : string) :
  String.prefix "image/" (File.type file) = true ->
  (File.size file <= maxFileSize)%N ->
  let r := play [ReaderLoaded dataUrl] (run (handleImageUpload (Some file)) st) in
  final r = mkState (Some dataUrl) (Some file) VNull (loading st) VNull
                    (usageStats st) (provider st) (fileInputValue st) /\
  trace r = [ESet (setError VNull); ESet (setSelectedFile (Some file));
             ERead file; ESet (setSelectedImage (Some dataUrl));
             ESet (setAnalysis VNull)] /\
  suspended r = [].
Proof.
  intros Hty Hsz. unfold handleImageUpload. rewrite Hty.
  assert (Hlt : (maxFileSize <? File.size file)%N = false)
    by (apply N.ltb_ge; exact Hsz).
  simpl negb. cbv iota. rewrite Hlt. simpl. repeat split.
Qed.

(** C5. After a successful analysis by "gemini", choosing another valid
    photo and letting it load clears the recommendation and the error and
    stages the new file, but the provider of the vanished result is still
    in the state and its badge is still rendered over the empty results
    panel; [resetAnalyzer], from the same state, does clear it. *)
Theorem C5_accept_keeps_provider :
  exec acceptAfterSuccess mounted = Some (after acceptAfterSuccess) /\
  provider (component (after untilAnalysed)) = VStr "gemini" /\
  let st := component (after acceptAfterSuccess) in
  selectedFile st = Some pierJpg /\
  selectedImage st = Some pierUrl /\
  analysis st = VNull /\
  error st = VNull /\
  resultsPanel st = Placeholder /\
  provider st = VStr "gemini" /\
  providerBadge st = Some (VStr "gemini") /\
  provider (final (run resetAnalyzer (component (after untilAnalysed)))) =
    VStr EmptyString.
Proof.
  vm_compute. repeat split.
Qed.

(** ** Reset *)

(** C6 fails as stated: pressing reset while an analysis is loading leaves
    [loading] set, so the state is not the initial one and the page shows
    the spinner instead of the initial placeholder. *)
Lemma C6_reset_while_loading_differs :
  exists sys,
    exec untilLoading mounted = Some sys /\
    reachable sys /\
    loading (component sys) = true /\
    let st := final (run resetAnalyzer (component sys)) in
    loading st = true /\
    loading initialState = false /\
    st <> initialState /\
    resultsPanel st = Spinner /\
    resultsPanel initialState = Placeholder.
Proof.
  exists (after untilLoading).
  split; [vm_compute; reflexivity|].
  split; [apply (after_reachable untilLoading (after untilLoading));
          vm_compute; reflexivity|].
  split; [vm_compute; reflexivity|].
  cbv zeta. repeat split; try (vm_compute; reflexivity).
  intros Heq. apply (f_equal loading) in Heq. vm_compute in Heq. discriminate.
Qed.

(** C6, amended. [resetAnalyzer] puts the preview, the selected file, the
    analysis, the error, the provider and the file input back to their
    initial values in every state, and leaves the busy flag and the usage
    snapshot as they are; doing it twice is the same as doing it once. *)
Theorem C6_reset_clears_and_is_idempotent (st : State) :
  let st' := final (run resetAnalyzer st) in
  st' = mkState (selectedImage initialState) (selectedFile initialState)
                (analysis initialState) (loading st) (error initialState)
                (usageStats st) (provider initialState)
                (fileInputValue initialState) /\
  final (run resetAnalyzer st') = st' /\
  suspended (run resetAnalyzer st) = [] /\
  uncaught (run resetAnalyzer st) = None.
Proof.
  simpl. repeat split.
Qed.

(** ** Usage tracker *)

(** C10 fails as stated: a body with [success: true] and no [usage] key
    replaces the snapshot by [undefined]; the previous snapshot is lost. *)
Lemma C10_missing_usage_overwrites :
  let r := play [FetchSettled (Normal ok200); JsonSettled (Normal usageMissingBody)]
                (run fetchUsageStats analysedState) in
  getProp "usage" usageMissingBody = Normal VUndefined /\
  usageStats analysedState = snapshot /\
  usageStats (final r) = VUndefined /\
  usageStats (final r) <> usageStats analysedState.
Proof.
  vm_compute. repeat split. discriminate.
Qed.

(** C10, amended. A refresh whose fetch rejects, whose body does not
    parse, whose body is [null], or whose [success] is falsy leaves the
    whole state as it was, the error slot included, and lets no exception
    out.  A body whose [success] is truthy replaces the snapshot by its
    [usage] property and changes nothing else. *)
Theorem C10_refresh_outcomes (st : State) (c1 : Completion Response)
    (c2 : Completion value) :
  let r := play [FetchSettled c1; JsonSettled c2] (run fetchUsageStats st) in
  uncaught r = None /\
  suspended r = [] /\
  usageRefreshes (trace r) = 1 /\
  final r =
    match c1, c2 with
    | Normal _, Normal result =>
        match getProp "success" result, getProp "usage" result with
        | Normal success, Normal usage =>
            if truthy success then apply (setUsageStats usage) st else st
        | _, _ => st
        end
    | _, _ => st
    end.
Proof.
  unfold fetchUsageStats, await_fetch, await_json, read.
  destruct c1 as [resp|e1]; [|simpl; repeat split].
  destruct c2 as [result|e2]; [|simpl; repeat split].
  destruct result as [| |b|n|s|items|props]; simpl;
    try destruct (truthy (lookup "success" props)); simpl; repeat split.
Qed.

Example usage_snapshot_replaced :
  usageStats
    (final (play [FetchSettled (Normal ok200); JsonSettled (Normal usageBody)]
                 (run fetchUsageStats initialState))) = snapshot.
Proof. reflexivity. Qed.

(** ** Analysis *)

(** C3. With a file selected, when the endpoint answers with
    [success: true], a recommendation string and a provider string,
    [analyzeSpot] stores exactly that recommendation and that provider,
    leaves the error slot cleared, and starts exactly one usage refresh;
    however the refresh ends, the stored result and the cleared error stay
    and no second refresh is started. *)
Theorem C3_success_sets_result (st : State) (file : File.t) (endpoint : string)
    (resp : Response) (result : value) (recommendation prov : string) :
  selectedFile st = Some file ->
  getProp "success" result = Normal (VBool true) ->
  getProp "recommendation" result = Normal (VStr recommendation) ->
  getProp "provider" result = Normal (VStr prov) ->
  let r := play [FetchSettled (Normal resp); JsonSettled (Normal result)]
                (run (analyzeSpot st endpoint) st) in
  analysis (final r) = VStr recommendation /\
  provider (final r) = VStr prov /\
  error (final r) = VNull /\
  usageRefreshes (trace r) = 1 /\
  analysisCalls (trace r) = 1 /\
  uncaught r = None /\
  forall (c1 : Completion Response) (c2 : Completion value),
    let r' := play [FetchSettled c1; JsonSettled c2] r in
    terminated r' = true /\
    uncaught r' = None /\
    analysis (final r') = VStr recommendation /\
    provider (final r') = VStr prov /\
    error (final r') = VNull /\
    usageRefreshes (trace r') = 1.
Proof.
  intros Hfile Hs Hr Hp. unfold_handlers. rewrite Hfile. simpl.
  feed Hs. feed Hr. feed Hp.
  repeat split;
    destruct c1 as [resp1|e1]; simpl; try reflexivity;
    destruct c2 as [body|e2]; simpl; try reflexivity;
    destruct (getProp "success" body) as [sv|e3]; simpl; try reflexivity;
    destruct (truthy sv); simpl; try reflexivity;
    destruct (getProp "usage" body) as [u|e4]; simpl; reflexivity.
Qed.

Lemma C3_success_sets_result_witness :
  let r := play [FetchSettled (Normal ok200); JsonSettled (Normal reedsBody)]
                (run (analyzeSpot analysedState "analyze-smart") analysedState) in
  analysis (final r) = VStr "Cast near the reeds" /\
  provider (final r) = VStr "gemini" /\
  error (final r) = VNull /\
  usageRefreshes (trace r) = 1 /\
  analysisCalls (trace r) = 1 /\
  uncaught r = None /\
  forall (c1 : Completion Response) (c2 : Completion value),
    let r' := play [FetchSettled c1; JsonSettled c2] r in
    terminated r' = true /\
    uncaught r' = None /\
    analysis (final r') = VStr "Cast near the reeds" /\
    provider (final r') = VStr "gemini" /\
    error (final r') = VNull /\
    usageRefreshes (trace r') = 1.
Proof.
  apply (C3_success_sets_result analysedState reedsPng "analyze-smart" ok200
           reedsBody "Cast near the reeds" "gemini"); reflexivity.
Defined.

(** C4 fails as stated: when the body carries an empty [error] string the message
    shown is "Analysis failed", not the empty string of the response. *)
Lemma C4_empty_error_replaced :
  let r := play [FetchSettled (Normal ok200); JsonSettled (Normal emptyErrorBody)]
                (run (analyzeSpot analysedState "analyze-smart") analysedState) in
  getProp "success" emptyErrorBody = Normal (VBool false) /\
  getProp "error" emptyErrorBody = Normal (VStr EmptyString) /\
  error (final r) = VStr "Analysis failed" /\
  error (final r) <> VStr EmptyString.
Proof.
  vm_compute. repeat split. discriminate.
Qed.

(** C4, amended. With a file selected, when the endpoint answers with a
    falsy [success], the error slot receives the body's [error] property
    when that is truthy (a non-empty string, for one) and "Analysis failed"
    when it is absent, empty or otherwise falsy; no usage refresh is
    started, the invocation is over and the busy flag is cleared. *)
Theorem C4_failure_sets_error (st : State) (file : File.t) (endpoint : string)
    (resp : Response) (result success err : value) :
  selectedFile st = Some file ->
  getProp "success" result = Normal success ->
  truthy success = false ->
  getProp "error" result = Normal err ->
  let r := play [FetchSettled (Normal resp); JsonSettled (Normal result)]
                (run (analyzeSpot st endpoint) st) in
  error (final r) = (if truthy err then err else VStr "Analysis failed") /\
  usageRefreshes (trace r) = 0 /\
  analysisCalls (trace r) = 1 /\
  terminated r = true /\
  uncaught r = None /\
  loading (final r) = false /\
  analysis (final r) = analysis st /\
  provider (final r) = provider st.
Proof.
  intros Hfile Hs Hfalsy He. unfold_handlers. rewrite Hfile. simpl.
  feed Hs. feed Hfalsy. feed He. repeat split.
Qed.

Lemma C4_failure_sets_error_witness :
  let r := play [FetchSettled (Normal ok200); JsonSettled (Normal quotaBody)]
                (run (analyzeSpot analysedState "analyze-hf") analysedState) in
  error (final r) = VStr "quota exceeded" /\
  usageRefreshes (trace r) = 0 /\
  analysisCalls (trace r) = 1 /\
  terminated r = true /\
  uncaught r = None /\
  loading (final r) = false /\
  analysis (final r) = VStr "Cast near the reeds" /\
  provider (final r) = VStr "gemini".
Proof.
  apply (C4_failure_sets_error analysedState reedsPng "analyze-hf" ok200
           quotaBody (VBool false) (VStr "quota exceeded")); reflexivity.
Defined.

(** C7 fails as stated: once the successful response has been processed
    the invocation is not over; it is suspended on the refresh it has just
    started, with the busy flag still set. *)
Lemma C7_refresh_is_awaited :
  let r := play [FetchSettled (Normal ok200); JsonSettled (Normal reedsBody)]
                (run (analyzeSpot analysedState "analyze-smart") analysedState) in
  List.last (trace r) (ESet (setLoading false)) = EFetch usageRequest /\
  terminated r = false /\
  loading (final r) = true /\
  List.existsb (fun e => match e with ESet (setLoading false) => true | _ => false end)
               (trace r) = false /\
  let r' := play [FetchSettled (Thrown offline)] r in
  terminated r' = true /\
  loading (final r') = false /\
  List.last (trace r') (EFetch usageRequest) = ESet (setLoading false).
Proof.
  vm_compute. repeat split.
Qed.

(** C7, amended. In a successful invocation the effects come in this
    order: busy flag set, error cleared, analysis request, body read,
    recommendation stored, provider stored, and only then the usage
    request.  The invocation then waits for the refresh: the busy flag
    stays set while the refresh is pending, and when the refresh has
    settled, whichever way, the invocation ends by clearing the flag, with
    the stored result untouched. *)
Theorem C7_refresh_after_result_then_awaited (st : State) (file : File.t)
    (endpoint : string) (resp : Response) (result success recommendation prov : value) :
  selectedFile st = Some file ->
  getProp "success" result = Normal success ->
  truthy success = true ->
  getProp "recommendation" result = Normal recommendation ->
  getProp "provider" result = Normal prov ->
  let r := play [FetchSettled (Normal resp); JsonSettled (Normal result)]
                (run (analyzeSpot st endpoint) st) in
  trace r = [ESet (setLoading true); ESet (setError VNull);
             EFetch (analysisRequest endpoint file); EJson resp;
             ESet (setAnalysis recommendation); ESet (setProvider prov);
             EFetch usageRequest] /\
  terminated r = false /\
  loading (final r) = true /\
  forall (c1 : Completion Response) (c2 : Completion value),
    let r' := play [FetchSettled c1; JsonSettled c2] r in
    terminated r' = true /\
    loading (final r') = false /\
    List.last (trace r') (EFetch usageRequest) = ESet (setLoading false) /\
    analysis (final r') = recommendation /\
    provider (final r') = prov.
Proof.
  intros Hfile Hs Htruthy Hr Hp. unfold_handlers. rewrite Hfile. simpl.
  feed Hs. feed Htruthy. feed Hr. feed Hp.
  repeat split;
    destruct c1 as [resp1|e1]; simpl; try reflexivity;
    destruct c2 as [body|e2]; simpl; try reflexivity;
    destruct (getProp "success" body) as [sv|e3]; simpl; try reflexivity;
    destruct (truthy sv); simpl; try reflexivity;
    destruct (getProp "usage" body) as [u|e4]; simpl; reflexivity.
Qed.

Lemma C7_refresh_after_result_then_awaited_witness :
  let r := play [FetchSettled (Normal ok200); JsonSettled (Normal reedsBody)]
                (run (analyzeSpot analysedState "analyze-gemini") analysedState) in
  trace r = [ESet (setLoading true); ESet (setError VNull);
             EFetch (analysisRequest "analyze-gemini" reedsPng); EJson ok200;
             ESet (setAnalysis (VStr "Cast near the reeds"));
             ESet (setProvider (VStr "gemini"));
             EFetch usageRequest] /\
  terminated r = false /\
  loading (final r) = true /\
  forall (c1 : Completion Response) (c2 : Completion value),
    let r' := play [FetchSettled c1; JsonSettled c2] r in
    terminated r' = true /\
    loading (final r') = false /\
    List.last (trace r') (EFetch usageRequest) = ESet (setLoading false) /\
    analysis (final r') = VStr "Cast near the reeds" /\
    provider (final r') = VStr "gemini".
Proof.
  apply (C7_refresh_after_result_then_awaited analysedState reedsPng
           "analyze-gemini" ok200 reedsBody (VBool true)
           (VStr "Cast near the reeds") (VStr "gemini")); reflexivity.
Defined.

(** ** Result and error slots *)

(** C2 fails as stated: after an analysis that succeeded and a second one
    that the service refused, the state holds the first recommendation and
    the error of the second at once, and the page renders both. *)
Lemma C2_result_and_error_together :
  exists sys,
    exec failAfterSuccess mounted = Some sys /\
    reachable sys /\
    analysis (component sys) = VStr "Cast near the reeds" /\
    provider (component sys) = VStr "gemini" /\
    error (component sys) = VStr "quota exceeded" /\
    resultsPanel (component sys) = Recommendation (VStr "Cast near the reeds") /\
    errorBanner (component sys) = Some (VStr "quota exceeded").
Proof.
  exists (after failAfterSuccess).
  split; [vm_compute; reflexivity|].
  split; [apply (after_reachable failAfterSuccess (after failAfterSuccess));
          vm_compute; reflexivity|].
  vm_compute. repeat split.
Qed.

(** C2, amended. The analysis and the error are two slots written
    independently.  Both are empty initially and after a reset.  Starting
    an analysis clears the error and keeps the analysis and provider; a
    refused analysis or a transport failure then writes a non-empty error
    and still keeps the analysis and provider that were there, so a result
    displayed before the call remains current next to the new error. *)
Theorem C2_slots_written_independently (st : State) (file : File.t)
    (endpoint : string) :
  selectedFile st = Some file ->
  let r0 := run (analyzeSpot st endpoint) st in
  (analysis initialState = VNull /\ error initialState = VNull) /\
  (analysis (final (run resetAnalyzer st)) = VNull /\
   error (final (run resetAnalyzer st)) = VNull) /\
  (error (final r0) = VNull /\
   analysis (final r0) = analysis st /\ provider (final r0) = provider st) /\
  (forall resp result success err,
     getProp "success" result = Normal success ->
     truthy success = false ->
     getProp "error" result = Normal err ->
     let r := play [FetchSettled (Normal resp); JsonSettled (Normal result)] r0 in
     truthy (error (final r)) = true /\
     analysis (final r) = analysis st /\ provider (final r) = provider st) /\
  (forall e,
     let r := play [FetchSettled (Thrown e)] r0 in
     error (final r) = VStr msgConnection /\
     analysis (final r) = analysis st /\ provider (final r) = provider st) /\
  (forall resp e,
     let r := play [FetchSettled (Normal resp); JsonSettled (Thrown e)] r0 in
     error (final r) = VStr msgConnection /\
     analysis (final r) = analysis st /\ provider (final r) = provider st).
Proof.
  intros Hfile. unfold_handlers. rewrite Hfile. simpl.
  split; [split; reflexivity|].
  split; [split; reflexivity|].
  split; [repeat split|].
  split.
  { intros resp result success err Hs Hfalsy He.
    feed Hs. feed Hfalsy. feed He.
    split; [|split; reflexivity].
    destruct (truthy err) eqn:Ht; [exact Ht | reflexivity]. }
  split; intros; simpl; repeat split.
Qed.

Lemma C2_slots_written_independently_witness :
  let st := analysedState in
  let r0 := run (analyzeSpot st "analyze-smart") st in
  (analysis initialState = VNull /\ error initialState = VNull) /\
  (analysis (final (run resetAnalyzer st)) = VNull /\
   error (final (run resetAnalyzer st)) = VNull) /\
  (error (final r0) = VNull /\
   analysis (final r0) = analysis st /\ provider (final r0) = provider st) /\
  (forall resp result success err,
     getProp "success" result = Normal success ->
     truthy success = false ->
     getProp "error" result = Normal err ->
     let r := play [FetchSettled (Normal resp); JsonSettled (Normal result)] r0 in
     truthy (error (final r)) = true /\
     analysis (final r) = analysis st /\ provider (final r) = provider st) /\
  (forall e,
     let r := play [FetchSettled (Thrown e)] r0 in
     error (final r) = VStr msgConnection /\
     analysis (final r) = analysis st /\ provider (final r) = provider st) /\
  (forall resp e,
     let r := play [FetchSettled (Normal resp); JsonSettled (Thrown e)] r0 in
     error (final r) = VStr msgConnection /\
     analysis (final r) = analysis st /\ provider (final r) = provider st).
Proof.
  apply (C2_slots_written_independently analysedState reedsPng "analyze-smart").
  reflexivity.
Defined.

(** ** Busy-flag exclusion *)

Lemma apply_keeps_loading s st :
  writesLoading s = false -> loading (apply s st) = loading st.
Proof. destruct s; simpl; intros H; try reflexivity; discriminate. Qed.

Lemma linear_seq p q : linear p -> linear q -> linear (seq p q).
Proof.
  intros Hp Hq; induction Hp; simpl; try (constructor; auto); exact Hq.
Qed.

Lemma linear_try_catch p h :
  linear p -> (forall e, linear (h e)) -> linear (try_catch p h).
Proof.
  intros Hp Hh; induction Hp; simpl; try (constructor; auto); apply Hh.
Qed.

Lemma linear_quiet p : linear p -> quiet p.
Proof. induction 1; constructor; auto. Qed.

Lemma releasing_try_finally p :
  linear p -> releasing (try_finally p (SetState (setLoading false) Done)).
Proof.
  induction 1; simpl.
  - apply releasing_now; constructor.
  - apply releasing_now; constructor.
  - apply releasing_set; assumption.
  - apply releasing_console; assumption.
  - apply releasing_fetch; assumption.
  - apply releasing_json; assumption.
Qed.

Lemma linear_read v key k :
  (forall x, linear (k x)) -> linear (read v key k).
Proof.
  intros Hk. unfold read. destruct (getProp key v); [apply Hk | constructor].
Qed.

Lemma linear_await_fetch req k :
  (forall x, linear (k x)) -> linear (await_fetch req k).
Proof.
  intros Hk. apply linear_fetch. intros [x|e]; [apply Hk | constructor].
Qed.

Lemma linear_await_json resp k :
  (forall x, linear (k x)) -> linear (await_json resp k).
Proof.
  intros Hk. apply linear_json. intros [x|e]; [apply Hk | constructor].
Qed.

Lemma linear_fetchUsageStats : linear fetchUsageStats.
Proof.
  unfold fetchUsageStats. apply linear_try_catch.
  - apply linear_await_fetch; intros response.
    apply linear_await_json; intros result.
    apply linear_read; intros success.
    destruct (truthy success); [|constructor].
    apply linear_read; intros usage. repeat constructor.
  - intros e. repeat constructor.
Qed.

(** What [analyzeSpot] does after its guard, when a file is selected. *)
Lemma analyzeSpot_shape rendered endpoint :
  analyzeSpot rendered endpoint = Done \/
  exists body,
    analyzeSpot rendered endpoint =
      SetState (setLoading true) (SetState (setError VNull) body) /\
    releasing body.
Proof.
  unfold analyzeSpot. destruct (selectedFile rendered) as [file|]; [right|now left].
  eexists; split; [reflexivity|].
  apply releasing_try_finally, linear_try_catch.
  - apply linear_await_fetch; intros response.
    apply linear_await_json; intros result.
    apply linear_read; intros success.
    destruct (truthy success).
    + apply linear_read; intros recommendation.
      apply linear_set; [reflexivity|].
      apply linear_read; intros prov.
      apply linear_set; [reflexivity|].
      apply linear_seq; [apply linear_fetchUsageStats | constructor].
    + apply linear_read; intros err. repeat constructor.
  - intros e. repeat constructor.
Qed.

Lemma quiet_handleImageUpload file : quiet (handleImageUpload file).
Proof.
  unfold handleImageUpload. destruct file as [file|]; [|constructor].
  destruct (negb _); [repeat constructor|].
  destruct (_ <? _)%N; [repeat constructor|].
  repeat constructor.
Qed.

Lemma quiet_resetAnalyzer : quiet resetAnalyzer.
Proof. unfold resetAnalyzer. repeat constructor. Qed.

Lemma run_quiet p :
  quiet p -> forall st,
  loading (final (run p st)) = loading st /\
  Forall quietS (suspended (run p st)).
Proof.
  induction 1; intros st; simpl.
  - split; [reflexivity | constructor].
  - split; [reflexivity | constructor].
  - destruct (IHquiet (apply s st)) as [Hl Hs]. split; [|exact Hs].
    rewrite Hl. now apply apply_keeps_loading.
  - apply IHquiet.
  - split; [reflexivity|]. repeat constructor. assumption.
  - split; [reflexivity|]. repeat constructor. assumption.
  - destruct (IHquiet st) as [Hl Hs]. split; [exact Hl|].
    constructor; [simpl; assumption | exact Hs].
Qed.

Lemma run_releasing p :
  releasing p -> forall st,
  (suspended (run p st) = [] /\ loading (final (run p st)) = false) \/
  (exists s, suspended (run p st) = [s] /\ releasingS s /\
             loading (final (run p st)) = loading st).
Proof.
  induction 1 as [k Hk|s k Hs Hk IH|l e k Hk IH|req k Hk IH|resp k Hk IH];
    intros st; simpl.
  - left. destruct Hk; simpl; split; reflexivity.
  - destruct (IH (apply s st)) as [Hend|[s' [Hsus [Hrel Hl]]]]; [now left|right].
    exists s'. repeat split; try assumption.
    rewrite Hl. now apply apply_keeps_loading.
  - apply IH.
  - right. eexists; repeat split. exact Hk.
  - right. eexists; repeat split. exact Hk.
Qed.

Lemma countAnalyses_app l1 l2 :
  countAnalyses (l1 ++ l2) = countAnalyses l1 + countAnalyses l2.
Proof. unfold countAnalyses. now rewrite List.filter_app, List.length_app. Qed.

Lemma countAnalyses_enqueue o n l :
  countAnalyses (enqueue o n l) = if isAnalyze o then List.length l else 0.
Proof.
  revert n; induction l as [|s l IH]; intros n; simpl.
  - now destruct (isAnalyze o).
  - unfold countAnalyses in *. simpl. specialize (IH (S n)).
    destruct (isAnalyze o); simpl; now rewrite IH.
Qed.

Lemma enqueue_quiet o n l :
  isAnalyze o = false -> Forall quietS l -> Forall taskOk (enqueue o n l).
Proof.
  intros Ho Hl; revert n; induction Hl; intros n; simpl; constructor; auto.
  unfold taskOk; simpl. now rewrite Ho.
Qed.

Lemma extract_spec id : forall l t rest,
  extract id l = Some (t, rest) ->
  countAnalyses l = countAnalyses [t] + countAnalyses rest /\
  (Forall taskOk l -> taskOk t /\ Forall taskOk rest).
Proof.
  induction l as [|t0 l IH]; intros t rest Hex; simpl in Hex; [discriminate|].
  destruct (Nat.eqb (tid t0) id).
  - inversion Hex; subst. split.
    + change (t :: rest) with ([t] ++ rest)%list. now rewrite countAnalyses_app.
    + intros Hall; inversion Hall; auto.
  - destruct (extract id l) as [[t' rest']|]; [|discriminate].
    inversion Hex; subst. destruct (IH t rest' eq_refl) as [Hc Hf]. split.
    + change (t0 :: l) with ([t0] ++ l)%list.
      change (t0 :: rest') with ([t0] ++ rest')%list.
      rewrite !countAnalyses_app, Hc. lia.
    + intros Hall; inversion Hall; subst. destruct (Hf H2). auto.
Qed.

Lemma invariant_after_quiet p o st l n n' h :
  quiet p -> isAnalyze o = false ->
  Forall taskOk l ->
  countAnalyses l = (if loading st then 1 else 0) ->
  busyInvariant
    (mkSystem (final (run p st)) (l ++ enqueue o n (suspended (run p st))) n' h).
Proof.
  intros Hq Ho Hall Hc. destruct (run_quiet p Hq st) as [Hl Hs].
  split; simpl.
  - apply Forall_app; split; [exact Hall | now apply enqueue_quiet].
  - unfold analysesInFlight; simpl.
    rewrite countAnalyses_app, countAnalyses_enqueue, Ho, Hl, Hc. lia.
Qed.

Lemma invariant_after_releasing p st l n n' h :
  releasing p -> loading st = true ->
  Forall taskOk l -> countAnalyses l = 0 ->
  busyInvariant
    (mkSystem (final (run p st))
              (l ++ enqueue FromAnalyze n (suspended (run p st))) n' h).
Proof.
  intros Hr Hl Hall Hc.
  destruct (run_releasing p Hr st) as [[Hsus Hfin]|[s [Hsus [Hrel Hfin]]]];
    rewrite Hsus; split; simpl.
  - now rewrite app_nil_r.
  - unfold analysesInFlight; simpl. now rewrite app_nil_r, Hfin, Hc.
  - apply Forall_app; split; [exact Hall|]. repeat constructor. exact Hrel.
  - unfold analysesInFlight; simpl.
    rewrite countAnalyses_app, Hc, Hfin, Hl. reflexivity.
Qed.

Lemma busyInvariant_mounted : busyInvariant mounted.
Proof.
  unfold mounted, dispatch. cbn [component tasks fresh history].
  apply (invariant_after_quiet fetchUsageStats FromMount initialState []).
  - apply linear_quiet, linear_fetchUsageStats.
  - reflexivity.
  - constructor.
  - reflexivity.
Qed.

Lemma busyInvariant_step ev sys sys' :
  busyInvariant sys -> step ev sys = Some sys' -> busyInvariant sys'.
Proof.
  intros [Hall Hc] Hstep. unfold analysesInFlight in Hc.
  destruct ev as [file|b| |id a]; simpl in Hstep.
  - inversion Hstep; subst. unfold dispatch. cbn [component tasks fresh history withComponent].
    apply invariant_after_quiet;
      [apply quiet_handleImageUpload | reflexivity | exact Hall | exact Hc].
  - unfold analyzeRendered, analyzeDisabled in Hstep.
    destruct (shown (selectedImage (component sys))); [|discriminate].
    destruct (loading (component sys)) eqn:Hl; [discriminate|].
    simpl in Hstep. inversion Hstep; subst. unfold dispatch.
    destruct (analyzeSpot_shape (component sys) (endpointOf b))
      as [Hdone|[body [Hshape Hrel]]].
    + rewrite Hdone. simpl. split; simpl.
      * now rewrite app_nil_r.
      * unfold analysesInFlight; simpl. now rewrite app_nil_r, Hl.
    + rewrite Hshape. simpl.
      apply invariant_after_releasing;
        [exact Hrel | reflexivity | exact Hall | exact Hc].
  - destruct (resetRendered (component sys)); [|discriminate].
    inversion Hstep; subst. unfold dispatch.
    apply invariant_after_quiet;
      [apply quiet_resetAnalyzer | reflexivity | exact Hall | exact Hc].
  - destruct (extract id (tasks sys)) as [[t rest]|] eqn:Hex; [|discriminate].
    destruct (resume (waiting t) a) as [p|] eqn:Hres; [|discriminate].
    inversion Hstep; subst. unfold dispatch.
    cbn [component tasks fresh history withTasks].
    destruct (extract_spec id _ _ _ Hex) as [Hcount Hsplit].
    destruct (Hsplit Hall) as [Ht Hrest].
    unfold taskOk in Ht. unfold countAnalyses in Hcount at 2. simpl in Hcount.
    destruct (isAnalyze (source t)) eqn:Hsrc.
    + assert (Hp : releasing p).
      { destruct (waiting t), a; simpl in Hres; inversion Hres; subst;
          simpl in Ht; try apply Ht; contradiction. }
      simpl in Hcount.
      destruct (loading (component sys)) eqn:Hl; [|lia].
      destruct (source t); try discriminate.
      apply invariant_after_releasing; [exact Hp | exact Hl | exact Hrest | lia].
    + assert (Hp : quiet p).
      { destruct (waiting t), a; simpl in Hres; inversion Hres; subst;
          simpl in Ht; apply Ht. }
      simpl in Hcount.
      apply invariant_after_quiet; [exact Hp | exact Hsrc | exact Hrest | lia].
Qed.

Lemma busyInvariant_reachable sys : reachable sys -> busyInvariant sys.
Proof.
  induction 1 as [|ev sys sys' Hr IH Hstep].
  - apply busyInvariant_mounted.
  - exact (busyInvariant_step ev sys sys' IH Hstep).
Qed.

(** C1 fails as stated: [analyzeSpot] never reads the busy flag.  Called
    in a reachable state in which an analysis is pending, a file is
    selected and an error is displayed, it clears the error and sends a
    second analysis request. *)
Lemma C1_second_call_goes_out :
  exists sys,
    exec untilLoadingWithError mounted = Some sys /\
    reachable sys /\
    loading (component sys) = true /\
    analysesInFlight sys = 1 /\
    let r := run (analyzeSpot (component sys) "analyze-smart") (component sys) in
    analysisCalls (trace r) = 1 /\
    error (component sys) = VStr msgNotImage /\
    error (final r) = VNull /\
    final r <> component sys.
Proof.
  exists (after untilLoadingWithError).
  split; [vm_compute; reflexivity|].
  split; [apply (after_reachable untilLoadingWithError
                   (after untilLoadingWithError)); vm_compute; reflexivity|].
  vm_compute. repeat split.
  intros Heq. discriminate Heq.
Qed.

(** C1, amended. The exclusion is made by the render, not by
    [analyzeSpot]: in every state the component can reach through its
    events, the number of [analyzeSpot] invocations under way is one when
    the busy flag is set and zero otherwise, so never more than one; while
    the flag is set the three analysis buttons are disabled, a click on
    them runs nothing, and the state, the tasks and the requests sent stay
    as they are. *)
Theorem C1_exclusion_by_disabled_buttons (sys : System) :
  reachable sys ->
  analysesInFlight sys = (if loading (component sys) then 1 else 0) /\
  analysesInFlight sys <= 1 /\
  (loading (component sys) = true ->
   analyzeDisabled (component sys) = true /\
   forall b, step (ClickAnalyze b) sys = None).
Proof.
  intros Hr. destruct (busyInvariant_reachable sys Hr) as [_ Hc].
  split; [exact Hc|]. split.
  - rewrite Hc. destruct (loading (component sys)); lia.
  - intros Hl. split; [exact Hl|]. intros b. simpl.
    unfold analyzeDisabled. rewrite Hl. now rewrite andb_false_r.
Qed.

Lemma C1_exclusion_by_disabled_buttons_witness :
  let sys := after untilLoading in
  analysesInFlight sys = (if loading (component sys) then 1 else 0) /\
  analysesInFlight sys <= 1 /\
  (loading (component sys) = true ->
   analyzeDisabled (component sys) = true /\
   forall b, step (ClickAnalyze b) sys = None).
Proof.
  apply (C1_exclusion_by_disabled_buttons (after untilLoading)).
  apply (after_reachable untilLoading (after untilLoading)).
  vm_compute. reflexivity.
Defined.

(** * Further properties of the handlers *)

(** ** Failures of the transport *)



(** ** Edge cases of a successful response *)



(** X3. After a refresh whose body has a truthy [success] and a truthy
    [usage], the usage card is rendered and its first expression reads
    [used] from the [daily] property of that [usage]; when [usage] has no
    [daily], or a [null] one, evaluating the expression throws. *)
Theorem usage_card_reads_daily (st : State) (resp : Response)
    (result success usage daily : value) :
  getProp "success" result = Normal success ->
  truthy success = true ->
  getProp "usage" result = Normal usage ->
  truthy usage = true ->
  getProp "daily" usage = Normal daily ->
  let r := play [FetchSettled (Normal resp); JsonSettled (Normal result)]
                (run fetchUsageStats st) in
  usageCardUsed (final r) = Some (getProp "used" daily) /\
  (daily = VUndefined \/ daily = VNull ->
   exists e, usageCardUsed (final r) = Some (Thrown e)).
Proof.
  intros Hs Htruthy Hu Hut Hd. unfold_handlers. simpl.
  feed Hs. feed Htruthy. feed Hu.
  unfold usageCardUsed. simpl. rewrite Hut, Hd.
  split; [reflexivity|].
  intros [Hdaily|Hdaily]; subst daily; eexists; reflexivity.
Qed.

Lemma usage_card_reads_daily_witness :
  let r := play [FetchSettled (Normal ok200); JsonSettled (Normal usageWithoutDaily)]
                (run fetchUsageStats analysedState) in
  usageCardUsed (final r) = Some (getProp "used" VUndefined) /\
  (VUndefined = VUndefined \/ VUndefined = VNull ->
   exists e, usageCardUsed (final r) = Some (Thrown e)).
Proof.
  apply (usage_card_reads_daily analysedState ok200 usageWithoutDaily (VBool true)
           (VObj [("weekly", VNum 3%float)]) VUndefined); reflexivity.
Defined.

(** ** Accepting a file *)

Lemma accept_valid_file_witness :
  let r := play [ReaderLoaded pierUrl]
                (run (handleImageUpload (Some pierJpg)) analysedState) in
  final r = mkState (Some pierUrl) (Some pierJpg) VNull false VNull
                    snapshot (VStr "gemini") "C:\fakepath\reeds.png" /\
  trace r = [ESet (setError VNull); ESet (setSelectedFile (Some pierJpg));
             ERead pierJpg; ESet (setSelectedImage (Some pierUrl));
             ESet (setAnalysis VNull)] /\
  suspended r = [].
Proof.
  apply (accept_valid_file analysedState pierJpg pierUrl).
  - reflexivity.
  - unfold maxFileSize. simpl. lia.
Defined.

(** ** Programs whose effects all satisfy a predicate *)

Section Always.
Variable P : Effect -> Prop.

Lemma always_seq p q : always P p -> always P q -> always P (seq p q).
Proof.
  intros Hp Hq; induction Hp; simpl; try (constructor; auto); exact Hq.
Qed.

Lemma always_try_catch p h :
  always P p -> (forall e, always P (h e)) -> always P (try_catch p h).
Proof.
  intros Hp Hh; induction Hp; simpl; try (constructor; auto); apply Hh.
Qed.

Lemma always_try_finally p cleanup :
  always P p -> always P cleanup -> always P (try_finally p cleanup).
Proof.
  intros Hp Hc; induction Hp; simpl; try (constructor; auto).
  - exact Hc.
  - apply always_seq; [exact Hc | constructor].
Qed.

Lemma always_read v key k :
  (forall x, always P (k x)) -> always P (read v key k).
Proof.
  intros Hk. unfold read. destruct (getProp key v); [apply Hk | constructor].
Qed.

Lemma always_await_fetch req k :
  P (EFetch req) -> (forall x, always P (k x)) -> always P (await_fetch req k).
Proof.
  intros Hreq Hk. apply always_fetch; [exact Hreq|].
  intros [x|e]; [apply Hk | constructor].
Qed.

Lemma always_await_json resp k :
  P (EJson resp) -> (forall x, always P (k x)) -> always P (await_json resp k).
Proof.
  intros Hresp Hk. apply always_json; [exact Hresp|].
  intros [x|e]; [apply Hk | constructor].
Qed.

Lemma run_always p :
  always P p -> forall st,
  Forall P (trace (run p st)) /\ Forall (alwaysS P) (suspended (run p st)).
Proof.
  induction 1 as [|e|s k Hs Hk IH|l e k Hl Hk IH|req k Hreq Hk IH
                  |resp k Hresp Hk IH|f onload k Hf Hon IHon Hk IH];
    intros st; simpl.
  - split; constructor.
  - split; constructor.
  - destruct (IH (apply s st)) as [Ht Hsus]. split; [constructor|]; assumption.
  - destruct (IH st) as [Ht Hsus]. split; [constructor|]; assumption.
  - split; repeat constructor; assumption.
  - split; repeat constructor; assumption.
  - destruct (IH st) as [Ht Hsus].
    split; constructor; assumption.
Qed.

Lemma resume_always s a p :
  alwaysS P s -> resume s a = Some p -> always P p.
Proof.
  intros Hs Hres.
  destruct s, a; simpl in Hres; inversion Hres; subst; apply Hs.
Qed.

(** Whatever is answered, what an invocation does after a point is made
    of effects its pending continuations allow. *)
Lemma play_always answers : forall r,
  Forall (alwaysS P) (suspended r) ->
  exists extra,
    trace (play answers r) = (trace r ++ extra)%list /\
    Forall P extra /\
    Forall (alwaysS P) (suspended (play answers r)).
Proof.
  induction answers as [|a answers IH]; intros r Hsus; simpl.
  - exists []. rewrite app_nil_r. repeat split; [constructor | exact Hsus].
  - destruct (suspended r) as [|s others] eqn:Heq.
    + exists []. rewrite app_nil_r, Heq. repeat split; constructor.
    + destruct (resume s a) as [p|] eqn:Hres.
      * inversion Hsus as [|? ? Hs Hothers]; subst.
        destruct (run_always p (resume_always s a p Hs Hres) (final r))
          as [Ht Hnew].
        match goal with |- context [play answers ?r1] =>
          destruct (IH r1) as [extra [Htr [Hex Hfin]]] end.
        { simpl. apply Forall_app; split; assumption. }
        exists (trace (run p (final r)) ++ extra)%list.
        rewrite Htr. simpl. rewrite app_assoc.
        repeat split; [apply Forall_app; split|]; assumption.
      * exists []. rewrite app_nil_r, Heq. repeat split; [constructor | exact Hsus].
Qed.

End Always.

(** ** Programs that let no exception out *)

Lemma handled_seq p q : handled p -> handled q -> handled (seq p q).
Proof.
  intros Hp Hq; induction Hp; simpl; try (constructor; auto); exact Hq.
Qed.

Lemma handled_try_catch p h :
  linear p -> (forall e, handled (h e)) -> handled (try_catch p h).
Proof.
  intros Hp Hh; induction Hp; simpl; try (constructor; auto). apply Hh.
Qed.

Lemma handled_try_finally p cleanup :
  handled p -> handled cleanup -> handled (try_finally p cleanup).
Proof.
  intros Hp Hc; induction Hp; simpl; try (constructor; auto). exact Hc.
Qed.

Lemma run_handled p :
  handled p -> forall st,
  uncaught (run p st) = None /\ Forall handledS (suspended (run p st)).
Proof.
  induction 1 as [|s k Hk IH|l e k Hk IH|req k Hk IH|resp k Hk IH
                  |f onload k Hon IHon Hk IH]; intros st; simpl.
  - split; [reflexivity | constructor].
  - apply IH.
  - apply IH.
  - split; [reflexivity|]. repeat constructor. exact Hk.
  - split; [reflexivity|]. repeat constructor. exact Hk.
  - destruct (IH st) as [Hu Hs]. split; [exact Hu|].
    constructor; [exact Hon | exact Hs].
Qed.

Ltac linear_tac :=
  lazymatch goal with
  | |- forall _, _ => intro; linear_tac
  | |- linear (match ?c with Normal _ => _ | Thrown _ => _ end) =>
      destruct c; linear_tac
  | |- linear (if ?b then _ else _) => destruct b; linear_tac
  | |- linear (await_fetch _ _) => apply linear_await_fetch; linear_tac
  | |- linear (await_json _ _) => apply linear_await_json; linear_tac
  | |- linear (read _ _ _) => apply linear_read; linear_tac
  | |- linear (seq _ _) => apply linear_seq; linear_tac
  | |- linear (try_catch _ _) => apply linear_try_catch; linear_tac
  | |- linear fetchUsageStats => apply linear_fetchUsageStats
  | |- linear (SetState _ _) => apply linear_set; [reflexivity | linear_tac]
  | |- linear (ConsoleError _ _ _) => apply linear_console; linear_tac
  | |- linear _ => constructor
  end.

(** [always_tac solve] walks through a handler and leaves to [solve] the
    obligation of each effect it meets. *)
Ltac always_tac solve :=
  lazymatch goal with
  | |- forall _, _ => intro; always_tac solve
  | |- always _ (match ?c with Normal _ => _ | Thrown _ => _ end) =>
      destruct c; always_tac solve
  | |- always _ (if ?b then _ else _) => destruct b eqn:?; always_tac solve
  | |- always _ (await_fetch _ _) =>
      apply always_await_fetch; [solve | always_tac solve]
  | |- always _ (await_json _ _) =>
      apply always_await_json; [solve | always_tac solve]
  | |- always _ (read _ _ _) => apply always_read; always_tac solve
  | |- always _ (seq _ _) => apply always_seq; always_tac solve
  | |- always _ (try_catch _ _) => apply always_try_catch; always_tac solve
  | |- always _ (try_finally _ _) => apply always_try_finally; always_tac solve
  | |- always _ fetchUsageStats => unfold fetchUsageStats; always_tac solve
  | |- always _ (SetState _ _) => apply always_set; [solve | always_tac solve]
  | |- always _ (ConsoleError _ _ _) =>
      apply always_console; [solve | always_tac solve]
  | |- always _ (ReadAsDataURL _ _ _) =>
      apply always_reader; [solve | always_tac solve | always_tac solve]
  | |- always _ _ => constructor
  end.

(** ** One invocation of [analyzeSpot], whatever is answered *)

Lemma analyzeSpot_started (st : State) (file : File.t) (endpoint : string) :
  selectedFile st = Some file ->
  exists k,
    run (analyzeSpot st endpoint) st =
      mkRun (apply (setError VNull) (apply (setLoading true) st))
            [ESet (setLoading true); ESet (setError VNull);
             EFetch (analysisRequest endpoint file)]
            [OnFetch (analysisRequest endpoint file) k] None /\
    (forall c, releasing (k c)) /\
    (forall c, handled (k c)) /\
    (forall c, always noAnalysisFetch (k c)).
Proof.
  intros Hfile. unfold analyzeSpot. rewrite Hfile.
  cbn [run try_finally try_catch await_fetch logged final trace suspended uncaught].
  eexists. split; [reflexivity|]. split; [|split]; intros c.
  - apply releasing_try_finally. linear_tac.
  - apply handled_try_finally; [|repeat constructor].
    apply handled_try_catch; [linear_tac | intros e; repeat constructor].
  - always_tac ltac:(reflexivity).
Qed.

Lemma play_orderly answers : forall r, orderly r -> orderly (play answers r).
Proof.
  induction answers as [|a answers IH]; intros r Hr; simpl; [exact Hr|].
  destruct Hr as [Hu [[Hsus Hl]|[s [Hsus [Hrel [Hh Hl]]]]]]; rewrite Hsus.
  - split; [exact Hu|]. left. split; assumption.
  - destruct (resume s a) as [p|] eqn:Hres.
    + apply IH.
      assert (Hp : releasing p /\ handled p).
      { destruct s, a; simpl in Hres; inversion Hres; subst; simpl in Hrel, Hh;
          try contradiction; split; auto. }
      destruct Hp as [Hprel Hph].
      destruct (run_handled p Hph (final r)) as [Hu' Hhs].
      split; simpl; [exact Hu'|].
      destruct (run_releasing p Hprel (final r))
        as [[Hnone Hfalse]|[s' [Hone [Hrel' Hsame]]]].
      * left. rewrite Hnone. split; [reflexivity | exact Hfalse].
      * right. exists s'. rewrite Hone in *. simpl.
        inversion Hhs; subst. repeat split; try assumption.
        now rewrite Hsame.
    + split; [exact Hu|]. right. exists s. repeat split; assumption.
Qed.

Lemma analysisCalls_app t1 t2 :
  analysisCalls (t1 ++ t2) = analysisCalls t1 + analysisCalls t2.
Proof. unfold analysisCalls. now rewrite List.filter_app, List.length_app. Qed.

Lemma analysisCalls_none extra :
  Forall noAnalysisFetch extra -> analysisCalls extra = 0.
Proof.
  unfold analysisCalls. induction 1 as [|e l He Hl IH]; simpl; [reflexivity|].
  unfold noAnalysisFetch in He. now rewrite He.
Qed.

(** X4. With a file selected, however the environment answers and however
    far the invocation has got, [analyzeSpot] has let no exception out,
    waits on at most one promise, and has the busy flag set exactly while
    it is waiting: every invocation that is over has cleared the flag. *)
Theorem analyze_releases_busy_flag (st : State) (file : File.t)
    (endpoint : string) (answers : list Answer) :
  selectedFile st = Some file ->
  let r := play answers (run (analyzeSpot st endpoint) st) in
  uncaught r = None /\
  List.length (suspended r) <= 1 /\
  loading (final r) = negb (terminated r).
Proof.
  intros Hfile.
  destruct (analyzeSpot_started st file endpoint Hfile)
    as [k [Hrun [Hrel [Hh _]]]].
  assert (Ho : orderly (play answers (run (analyzeSpot st endpoint) st))).
  { apply play_orderly. rewrite Hrun. split; [reflexivity|]. right.
    eexists. repeat split; [exact Hrel | exact Hh]. }
  cbv zeta. destruct Ho as [Hu [[Hsus Hl]|[s [Hsus [_ [_ Hl]]]]]];
    unfold terminated; rewrite Hsus, Hl; simpl; repeat split; auto.
Qed.

Lemma analyze_releases_busy_flag_witness :
  let r := play [FetchSettled (Normal ok200); JsonSettled (Normal reedsBody);
                 FetchSettled (Thrown offline)]
                (run (analyzeSpot analysedState "analyze-smart") analysedState) in
  uncaught r = None /\
  List.length (suspended r) <= 1 /\
  loading (final r) = negb (terminated r).
Proof.
  apply (analyze_releases_busy_flag analysedState reedsPng "analyze-smart").
  reflexivity.
Defined.

(** X5. With a file selected, one invocation of [analyzeSpot] sends
    exactly one analysis request, whatever the answers are: a failure is
    never retried. *)
Theorem analyze_sends_one_request (st : State) (file : File.t)
    (endpoint : string) (answers : list Answer) :
  selectedFile st = Some file ->
  analysisCalls (trace (play answers (run (analyzeSpot st endpoint) st))) = 1.
Proof.
  intros Hfile.
  destruct (analyzeSpot_started st file endpoint Hfile)
    as [k [Hrun [_ [_ Hnone]]]].
  destruct (play_always noAnalysisFetch answers
              (run (analyzeSpot st endpoint) st)) as [extra [Htr [Hex _]]].
  { rewrite Hrun. repeat constructor. exact Hnone. }
  rewrite Htr, Hrun. cbn [trace].
  rewrite analysisCalls_app, (analysisCalls_none extra Hex). reflexivity.
Qed.

Lemma analyze_sends_one_request_witness :
  analysisCalls
    (trace (play [FetchSettled (Thrown offline); FetchSettled (Normal ok200)]
                 (run (analyzeSpot analysedState "analyze-gemini") analysedState)))
  = 1.
Proof.
  apply (analyze_sends_one_request analysedState reedsPng "analyze-gemini").
  reflexivity.
Defined.

(** ** Invariants of the event loop *)

Lemma extract_Forall (Q : Task -> Prop) id : forall l t rest,
  extract id l = Some (t, rest) -> Forall Q l -> Q t /\ Forall Q rest.
Proof.
  induction l as [|t0 l IH]; intros t rest Hex Hall; simpl in Hex; [discriminate|].
  inversion Hall as [|? ? Ht0 Hl]; subst.
  destruct (Nat.eqb (tid t0) id).
  - inversion Hex; subst. split; assumption.
  - destruct (extract id l) as [[t' rest']|]; [|discriminate].
    inversion Hex; subst. destruct (IH t rest' eq_refl Hl) as [Ht Hrest].
    split; [exact Ht | constructor; assumption].
Qed.

Lemma enqueue_Forall (Q : Suspension -> Prop) o n l :
  Forall Q l -> Forall (fun t => Q (waiting t)) (enqueue o n l).
Proof.
  intros Hl; revert n; induction Hl; intros n; simpl; constructor; auto.
Qed.

Section Invariant.
Variable P : Effect -> Prop.
Variable I : State -> Prop.
Hypothesis I_initial : I initialState.
Hypothesis I_apply : forall s st, P (ESet s) -> I st -> I (apply s st).
Hypothesis I_input :
  forall s st, I st -> I (apply (assignFileInputValue s) st).
Hypothesis P_upload : forall file, always P (handleImageUpload file).
Hypothesis P_usage : always P fetchUsageStats.
Hypothesis P_analyze :
  forall st b, I st -> always P (analyzeSpot st (endpointOf b)).
Hypothesis P_reset : always P resetAnalyzer.

Lemma run_keeps p : always P p -> forall st, I st -> I (final (run p st)).
Proof.
  induction 1; intros st Hst; simpl; auto.
Qed.

Lemma dispatch_holds o p sys :
  always P p -> holds P I sys -> holds P I (dispatch o p sys).
Proof.
  intros Hp [Hst [Htasks Hhist]].
  destruct (run_always P p Hp (component sys)) as [Htr Hsus].
  unfold dispatch. split; [|split]; simpl.
  - now apply run_keeps.
  - apply Forall_app; split; [exact Htasks|].
    now apply (enqueue_Forall (alwaysS P)).
  - apply Forall_app; split; assumption.
Qed.

Lemma holds_step ev sys sys' :
  holds P I sys -> step ev sys = Some sys' -> holds P I sys'.
Proof.
  intros Hsys Hstep. destruct ev as [file|b| |id a]; simpl in Hstep.
  - inversion Hstep; subst. apply dispatch_holds; [apply P_upload|].
    destruct Hsys as [Hst [Htasks Hhist]].
    split; [|split]; [|exact Htasks | exact Hhist].
    exact (I_input (chosenPath file) (component sys) Hst).
  - destruct (analyzeRendered (component sys) && _); [|discriminate].
    inversion Hstep; subst. apply dispatch_holds; [|exact Hsys].
    apply P_analyze. apply Hsys.
  - destruct (resetRendered (component sys)); [|discriminate].
    inversion Hstep; subst. now apply dispatch_holds.
  - destruct (extract id (tasks sys)) as [[t rest]|] eqn:Hex; [|discriminate].
    destruct (resume (waiting t) a) as [p|] eqn:Hres; [|discriminate].
    inversion Hstep; subst.
    destruct Hsys as [Hst [Htasks Hhist]].
    destruct (extract_Forall _ id _ _ _ Hex Htasks) as [Ht Hrest].
    apply dispatch_holds.
    + exact (resume_always P _ _ _ Ht Hres).
    + split; [|split]; simpl; assumption.
Qed.

Lemma holds_reachable sys : reachable sys -> holds P I sys.
Proof.
  induction 1 as [|ev sys sys' Hr IH Hstep].
  - unfold mounted. apply dispatch_holds; [exact P_usage|].
    split; [|split]; simpl; [exact I_initial | constructor | constructor].
  - exact (holds_step ev sys sys' IH Hstep).
Qed.

End Invariant.

Lemma validFile_checked (f : File.t) :
  validFile f = true <->
  String.prefix "image/" (File.type f) = true /\ (File.size f <= 10485760)%N.
Proof.
  unfold validFile, maxFileSize. rewrite andb_true_iff, N.leb_le.
  split; intros [H1 H2]; split; try assumption; simpl in *; lia.
Qed.

Lemma validated_holds sys :
  reachable sys -> holds carriesValidFile fileValidated sys.
Proof.
  apply holds_reachable.
  - exact I.
  - intros s st Hs Hst. destruct s as [v|v|v|b|v|v|v|x]; try exact Hst.
    unfold fileValidated; simpl. destruct v; [exact Hs | exact I].
  - intros s st Hst. exact Hst.
  - intros file. unfold handleImageUpload. destruct file as [file|]; [|constructor].
    destruct (String.prefix "image/" (File.type file)) eqn:Hty; simpl;
      [|repeat constructor].
    destruct (maxFileSize <? File.size file)%N eqn:Hsz; [repeat constructor|].
    assert (Hv : validFile file = true).
    { unfold validFile. rewrite Hty. simpl. apply N.leb_le.
      now apply N.ltb_ge in Hsz. }
    always_tac ltac:(simpl; auto).
  - always_tac ltac:(simpl; auto).
  - intros st b Hst. unfold analyzeSpot, fileValidated in *.
    destruct (selectedFile st) as [file|]; always_tac ltac:(simpl; auto).
  - unfold resetAnalyzer. always_tac ltac:(simpl; auto).
Qed.

(** X6. In every reachable state the selected file, if any, has passed
    both checks of [handleImageUpload], and so has every file that was
    ever handed to the reader or sent in a request: a file that is not an
    image or exceeds 10 MiB never reaches the network. *)
Theorem only_validated_files_leave (sys : System) :
  reachable sys ->
  (forall f, selectedFile (component sys) = Some f ->
     String.prefix "image/" (File.type f) = true /\
     (File.size f <= 10485760)%N) /\
  (forall req f, List.In (EFetch req) (history sys) -> body req = Some f ->
     String.prefix "image/" (File.type f) = true /\
     (File.size f <= 10485760)%N) /\
  (forall f, List.In (ERead f) (history sys) ->
     String.prefix "image/" (File.type f) = true /\
     (File.size f <= 10485760)%N).
Proof.
  intros Hr. destruct (validated_holds sys Hr) as [Hst [_ Hhist]].
  rewrite Forall_forall in Hhist. split; [|split].
  - intros f Hf. apply validFile_checked.
    unfold fileValidated in Hst. now rewrite Hf in Hst.
  - intros req f Hin Hbody. apply validFile_checked.
    specialize (Hhist _ Hin). simpl in Hhist. now rewrite Hbody in Hhist.
  - intros f Hin. apply validFile_checked. exact (Hhist _ Hin).
Qed.

Lemma only_validated_files_leave_witness :
  let sys := after failAfterSuccess in
  (forall f, selectedFile (component sys) = Some f ->
     String.prefix "image/" (File.type f) = true /\
     (File.size f <= 10485760)%N) /\
  (forall req f, List.In (EFetch req) (history sys) -> body req = Some f ->
     String.prefix "image/" (File.type f) = true /\
     (File.size f <= 10485760)%N) /\
  (forall f, List.In (ERead f) (history sys) ->
     String.prefix "image/" (File.type f) = true /\
     (File.size f <= 10485760)%N).
Proof.
  apply (only_validated_files_leave (after failAfterSuccess)).
  apply (after_reachable failAfterSuccess (after failAfterSuccess)).
  vm_compute. reflexivity.
Defined.




Lemma known_requests_hold sys :
  reachable sys -> holds sendsKnownRequest (fun _ => True) sys.
Proof.
  apply holds_reachable; try (intros; exact I).
  - intros file. unfold handleImageUpload. destruct file as [file|];
      always_tac ltac:(simpl; exact I).
  - always_tac ltac:(simpl; first [exact I | left; reflexivity]).
  - intros st b _. unfold analyzeSpot.
    destruct (selectedFile st) as [file|];
      always_tac ltac:(simpl; first [exact I | left; reflexivity
                                    | right; eexists; eexists; reflexivity]).
  - unfold resetAnalyzer. always_tac ltac:(simpl; exact I).
Qed.

(** X8. Every request the component has ever sent is either the GET of
    [usage-stats] without a body, or a POST of one file to the endpoint of
    one of the three buttons, all on the fixed origin. *)
Theorem requests_go_to_known_endpoints (sys : System) (req : Request) :
  reachable sys ->
  List.In (EFetch req) (history sys) ->
  req = mkRequest GET "http://localhost:8000/usage-stats" None \/
  exists b f,
    req = mkRequest POST ("http://localhost:8000/" ++ endpointOf b) (Some f).
Proof.
  intros Hr Hin. destruct (known_requests_hold sys Hr) as [_ [_ Hhist]].
  rewrite Forall_forall in Hhist. exact (Hhist _ Hin).
Qed.

Lemma requests_go_to_known_endpoints_witness :
  let req := analysisRequest "analyze-gemini" reedsPng in
  req = mkRequest GET "http://localhost:8000/usage-stats" None \/
  exists b f,
    req = mkRequest POST ("http://localhost:8000/" ++ endpointOf b) (Some f).
Proof.
  apply (requests_go_to_known_endpoints (after failAfterSuccess)).
  - apply (after_reachable failAfterSuccess (after failAfterSuccess)).
    vm_compute. reflexivity.
  - vm_compute. tauto.
Defined.

(** ** Guards *)

(** X9. With no file selected a click on an analysis button does nothing
    at all: no request, no write, nothing left pending.  Such states exist
    with the buttons enabled: a reset while a photo is being read leaves a
    preview without a file. *)
Theorem analyze_without_file_is_noop (sys : System) (b : AnalyzeButton) :
  selectedFile (component sys) = None ->
  step (ClickAnalyze b) sys = None \/ step (ClickAnalyze b) sys = Some sys.
Proof.
  intros Hnone. simpl.
  destruct (analyzeRendered (component sys) && _); [right | now left].
  unfold dispatch, analyzeSpot. rewrite Hnone. simpl.
  rewrite !app_nil_r, Nat.add_0_r. now destruct sys.
Qed.

Lemma analyze_without_file_is_noop_witness :
  let sys := after previewWithoutFile in
  analyzeRendered (component sys) = true /\
  analyzeDisabled (component sys) = false /\
  (step (ClickAnalyze SmartAnalysis) sys = None \/
   step (ClickAnalyze SmartAnalysis) sys = Some sys).
Proof.
  split; [vm_compute; reflexivity|].
  split; [vm_compute; reflexivity|].
  apply (analyze_without_file_is_noop (after previewWithoutFile) SmartAnalysis).
  vm_compute. reflexivity.
Defined.

(** ** A response that arrives after a reset *)

Lemma exec_step ev rest sys sys1 :
  step ev sys = Some sys1 -> exec (ev :: rest) sys = exec rest sys1.
Proof. intros Hstep. simpl. now rewrite Hstep. Qed.

(** The path of a successful analysis, one continuation at a time; each
    continuation runs in whatever state it finds when it is resumed. *)
Lemma analyzeSpot_success_path (st : State) (file : File.t) (endpoint : string)
    (resp : Response) (result success recommendation prov : value) :
  selectedFile st = Some file ->
  getProp "success" result = Normal success ->
  truthy success = true ->
  getProp "recommendation" result = Normal recommendation ->
  getProp "provider" result = Normal prov ->
  exists k,
    run (analyzeSpot st endpoint) st =
      mkRun (apply (setError VNull) (apply (setLoading true) st))
            [ESet (setLoading true); ESet (setError VNull);
             EFetch (analysisRequest endpoint file)]
            [OnFetch (analysisRequest endpoint file) k] None /\
    forall st1, exists k2,
      run (k (Normal resp)) st1 =
        mkRun st1 [EJson resp] [OnJson resp k2] None /\
      forall st2, exists k3,
        run (k2 (Normal result)) st2 =
          mkRun (apply (setProvider prov) (apply (setAnalysis recommendation) st2))
                [ESet (setAnalysis recommendation); ESet (setProvider prov);
                 EFetch usageRequest]
                [OnFetch usageRequest k3] None.
Proof.
  intros Hfile Hs Htruthy Hr Hp. unfold analyzeSpot. rewrite Hfile.
  cbn [run try_finally try_catch await_fetch logged final trace suspended uncaught].
  eexists. split; [reflexivity|]. intros st1.
  cbn [run try_finally try_catch await_json logged final trace suspended uncaught].
  eexists. split; [reflexivity|]. intros st2.
  unfold read. rewrite Hs, Htruthy, Hr.
  cbn [run try_finally try_catch logged final trace suspended uncaught].
  rewrite Hp. unfold fetchUsageStats.
  cbn [run seq try_finally try_catch await_fetch logged final trace suspended
       uncaught].
  eexists. reflexivity.
Qed.

(** X10. Nothing cancels a pending analysis.  When a valid photo is chosen
    and read, an analysis is started, the form is reset, and the service
    then answers with success, the recommendation and the provider are
    stored although no photo is staged any more, and the busy flag is
    still set while the usage refresh is awaited. *)
Theorem late_response_is_stored (file : File.t) (dataUrl : string)
    (b : AnalyzeButton) (resp : Response)
    (result success recommendation prov : value) :
  validFile file = true ->
  shown (Some dataUrl) = true ->
  getProp "success" result = Normal success ->
  truthy success = true ->
  getProp "recommendation" result = Normal recommendation ->
  getProp "provider" result = Normal prov ->
  exists sys,
    exec (lateResponse file dataUrl b resp result) mounted = Some sys /\
    selectedImage (component sys) = None /\
    selectedFile (component sys) = None /\
    analysis (component sys) = recommendation /\
    provider (component sys) = prov /\
    loading (component sys) = true /\
    analyzeRendered (component sys) = false.
Proof.
  intros Hvalid Hshown Hs Htruthy Hr Hp.
  unfold validFile in Hvalid. apply andb_true_iff in Hvalid.
  destruct Hvalid as [Hty Hsz].
  assert (Hlt : (maxFileSize <? File.size file)%N = false).
  { apply N.ltb_ge. now apply N.leb_le. }
  assert (Hmount : exists kU,
            mounted = mkSystem initialState
                               [mkTask 0 FromMount (OnFetch usageRequest kU)] 1
                               [EFetch usageRequest]).
  { eexists. reflexivity. }
  destruct Hmount as [kU Hmount]. rewrite Hmount. unfold lateResponse.
  (* the photo is chosen *)
  erewrite exec_step;
    [|cbn [step]; unfold dispatch, handleImageUpload; rewrite Hty, Hlt;
      cbn [negb run logged final trace suspended uncaught component tasks fresh
           history withComponent enqueue app length Nat.add];
      reflexivity].
  (* and read *)
  erewrite exec_step;
    [|cbn [step tasks extract tid Nat.eqb waiting resume]; unfold dispatch;
      cbn [run logged final trace suspended uncaught component tasks fresh
           history withTasks enqueue app length Nat.add source];
      reflexivity].
  (* the analysis is started *)
  match goal with |- context [mkSystem ?st _ 2 _] =>
    remember st as st2 eqn:Est2
  end.
  assert (Himg : selectedImage st2 = Some dataUrl) by (rewrite Est2; reflexivity).
  assert (Hidle : loading st2 = false) by (rewrite Est2; reflexivity).
  assert (Hfile : selectedFile st2 = Some file) by (rewrite Est2; reflexivity).
  destruct (analyzeSpot_success_path st2 file (endpointOf b) resp result
              success recommendation prov Hfile Hs Htruthy Hr Hp)
    as [k [Hrun0 Hk]].
  erewrite exec_step;
    [|cbn [step component]; unfold analyzeRendered, analyzeDisabled, dispatch;
      cbn [component tasks fresh history];
      rewrite Himg, Hidle, Hshown, Hrun0;
      cbn [negb andb final trace suspended enqueue app length Nat.add];
      reflexivity].
  (* the form is reset *)
  erewrite exec_step;
    [|cbn [step component]; unfold resetRendered, dispatch, resetAnalyzer;
      cbn [component tasks fresh history selectedImage apply];
      rewrite Himg, Hshown;
      cbn [run logged final trace suspended uncaught enqueue app length Nat.add];
      reflexivity].
  (* the response arrives *)
  match goal with |- context [mkSystem ?st _ 3 _] =>
    destruct (Hk st) as [k2 [Hrun1 Hk2]];
    destruct (Hk2 st) as [k3 Hrun2]
  end.
  erewrite exec_step;
    [|cbn [step tasks extract tid Nat.eqb waiting resume]; unfold dispatch;
      cbn [component tasks fresh history withTasks source];
      rewrite Hrun1;
      cbn [final trace suspended enqueue app length Nat.add];
      reflexivity].
  erewrite exec_step;
    [|cbn [step tasks extract tid Nat.eqb waiting resume]; unfold dispatch;
      cbn [component tasks fresh history withTasks source];
      rewrite Hrun2;
      cbn [final trace suspended enqueue app length Nat.add];
      reflexivity].
  cbn [exec]. eexists. split; [reflexivity|].
  cbn [component]. unfold analyzeRendered. cbn. auto 10.
Qed.

Lemma late_response_is_stored_witness :
  exists sys,
    exec (lateResponse reedsPng reedsUrl HFFallback ok200 reedsBody) mounted =
      Some sys /\
    selectedImage (component sys) = None /\
    selectedFile (component sys) = None /\
    analysis (component sys) = VStr "Cast near the reeds" /\
    provider (component sys) = VStr "gemini" /\
    loading (component sys) = true /\
    analyzeRendered (component sys) = false.
Proof.
  apply (late_response_is_stored reedsPng reedsUrl HFFallback ok200 reedsBody
           (VBool true) (VStr "Cast near the reeds") (VStr "gemini"));
    vm_compute; reflexivity.
Defined.
